(** * jrpc2: JSON-RPC 2.0 over HTTP, server dispatcher and client invoker

    A shallow embedding of [http.go] (package [jrpc2]: [WriteRespose] and
    [ServeHTTP]) and of the client's [Call] (package [client]), together
    with the parts of the Go runtime they run against: [encoding/json]
    decoding into the request struct, [http.ResponseWriter], and map
    iteration. *)

From Stdlib Require Import ZArith String Ascii.
From stdpp Require Import base option list strings gmap pretty.

Local Open Scope Z_scope.
Local Open Scope string_scope.
Set Warnings "-register-all".

(** ** Go values shared by both packages *)

(** A JSON value as [encoding/json] sees it once the text has passed its
    scanner.  Object members keep their order and their duplicates, as
    the decoder visits them one after the other. *)
Inductive json : Type :=
  | JNull
  | JBool (b : bool)
  | JNumber (lit : string)
  | JString (s : string)
  | JArray (elems : list json)
  | JObject (members : list (string * json)).

(** Go [error] values the two functions can meet.  For
    [*json.UnmarshalTypeError] the fields are the ones of the Go struct
    ([Offset] left out). *)
Inductive error : Type :=
  | errorString (msg : string)
  | SyntaxError (msg : string)
  | UnmarshalTypeError (Value Type_ Struct Field : string).

(** [err.Error()]. *)
Definition Error (e : error) : string :=
  match e with
  | errorString msg => msg
  | SyntaxError msg => msg
  | UnmarshalTypeError v t s f =>
      if String.eqb s "" && String.eqb f ""
      then "json: cannot unmarshal " +:+ v +:+ " into Go value of type " +:+ t
      else "json: cannot unmarshal " +:+ v +:+ " into Go struct field "
             +:+ s +:+ "." +:+ f +:+ " of type " +:+ t
  end.

(** ASCII case folding of one byte. *)
Definition lower (c : ascii) : ascii :=
  let n := N_of_ascii c in
  if ((65 <=? n) && (n <=? 90))%N then ascii_of_N (n + 32) else c.

(** [strings.EqualFold] on byte strings: equality up to the case of the
    ASCII letters.  (Go folds whole Unicode; bytes outside ASCII are
    compared as they are here.) *)
Fixpoint EqualFold (s t : string) : bool :=
  match s, t with
  | EmptyString, EmptyString => true
  | String a s', String b t' => Ascii.eqb (lower a) (lower b) && EqualFold s' t'
  | _, _ => false
  end.

(** [net/http] status codes used by the package. *)
Definition StatusOK : Z := 200.
Definition StatusNoContent : Z := 204.
Definition StatusBadRequest : Z := 400.
Definition StatusInternalServerError : Z := 500.

(** What the Go runtime and standard library decide and the program
    does not: the canonical form of a header name
    ([textproto.CanonicalMIMEHeaderKey], applied by [Header.Set]), the
    order in which [range] visits a map (any order, each entry once),
    and the JSON scanner (a syntax error with its text, or the value the
    text spells). *)
Class Runtime := {
  CanonicalMIMEHeaderKey : string -> string;
  range : gmap string string -> list (string * string);
  range_perm : forall m, range m ≡ₚ map_to_list m;
  json_parse : string -> string + json
}.

(** ** http.ResponseWriter *)

(** The writer of one HTTP response: the header map still being edited,
    the status line once it has been sent together with the headers that
    went out with it, the body bytes written so far, whether the
    connection fails on a write, and how many bytes of that write it
    still takes before it fails. *)
Record ResponseWriter := mkWriter {
  w_header : gmap string string;
  w_status : option Z;
  w_sent : gmap string string;
  w_body : string;
  w_broken : bool;
  w_accepts : nat
}.

(** A writer nothing was written to; when [broken], its connection
    fails on the first write without taking a byte. *)
Definition new_writer (broken : bool) : ResponseWriter :=
  mkWriter ∅ None ∅ "" broken 0.

(** [http.Header.Set]: the value replaces whatever the canonical form of
    the key held. *)
Definition Header_Set `{Runtime} (key value : string) (h : gmap string string)
  : gmap string string :=
  <[CanonicalMIMEHeaderKey key := value]> h.

(** [w.Header().Set(key, value)]. *)
Definition w_Header_Set `{Runtime} (key value : string) (w : ResponseWriter)
  : ResponseWriter :=
  mkWriter (Header_Set key value (w_header w))
           (w_status w) (w_sent w) (w_body w) (w_broken w) (w_accepts w).

(** [w.WriteHeader(code)]: the first call sends the status line and the
    header map as it is then; later calls are ignored. *)
Definition WriteHeader (code : Z) (w : ResponseWriter) : ResponseWriter :=
  match w_status w with
  | Some _ => w
  | None => mkWriter (w_header w) (Some code) (w_header w) (w_body w) (w_broken w)
                     (w_accepts w)
  end.

(** [w.Write(data)]: sends the header with 200 when none was sent, then
    the bytes. On a connection that fails, the bytes it still takes go
    out (a prefix of the data, which may be empty or all of it) and an
    error comes back; the count of bytes written, which [Write] returns
    first, is not kept, as the callers drop it. *)
Definition Write (data : string) (w : ResponseWriter)
  : ResponseWriter * option error :=
  let w := WriteHeader StatusOK w in
  if w_broken w then
    (mkWriter (w_header w) (w_status w) (w_sent w)
              (w_body w +:+ substring 0 (w_accepts w) data)
              (w_broken w) (w_accepts w),
     Some (errorString "write: connection lost"))
  else (mkWriter (w_header w) (w_status w) (w_sent w) (w_body w +:+ data)
                 (w_broken w) (w_accepts w), None).

(** [for header, value := range m { w.Header().Set(header, value) }]. *)
Definition set_headers `{Runtime} (m : gmap string string) (w : ResponseWriter)
  : ResponseWriter :=
  foldl (fun w hv => w_Header_Set hv.1 hv.2 w) w (range m).

(** A body reader and [ioutil.ReadAll]: the bytes read, and the error
    that ended the read if it was not end of file. *)
Record Reader := mkReader { content : string; read_err : option error }.

Definition ReadAll (b : Reader) : string * option error :=
  (content b, read_err b).

(** ** Package jrpc2: the data the dispatcher works on *)

(** [http.Request], as far as the package looks at it. *)
Module Request.
Record t := mk {
  Method : string;
  Proto : string;
  Header : gmap string string;
  Body : Reader
}.
End Request.

(** Modelled from the spec: the ErrorObject [{code, message, data}] of
    the data model; its declaration is not in http.go.  [Data] is a Go
    [interface{}], written as the JSON value it marshals to. *)
Module ErrorObject.
Record t := mk {
  Code : Z;
  Message : string;
  Data : json
}.
End ErrorObject.

(** Modelled from the spec: the Request Envelope
    [{protocolVersion: string, method: string, params: opaque bytes|null,
    id: string|number|null}] with the field names [ServeHTTP] reads and
    the JSON keys of the wire format ("jsonrpc", "method", "params",
    "id"); its declaration is not in http.go.  [Params] is the raw value
    ([None] for a nil RawMessage), [ID] the value given for the id
    ([JNull] for Go's nil). *)
Module RequestObject.
Record t := mk {
  Jsonrpc : string;
  Method : string;
  Params : option json;
  ID : json
}.
Definition zero : t := mk "" "" None JNull.
Definition set_Jsonrpc (v : string) (o : t) : t :=
  mk v (Method o) (Params o) (ID o).
Definition set_Method (v : string) (o : t) : t :=
  mk (Jsonrpc o) v (Params o) (ID o).
Definition set_Params (v : option json) (o : t) : t :=
  mk (Jsonrpc o) (Method o) v (ID o).
Definition set_ID (v : json) (o : t) : t :=
  mk (Jsonrpc o) (Method o) (Params o) v.
End RequestObject.

(** The literal built at lines 244-251 of http.go. *)
Module ParametersObject.
Record t := mk {
  id : json;
  method : string;
  params : option json;
  r : Request.t
}.
End ParametersObject.

(** Modelled from the spec: the Response Envelope with its wire fields
    and its transport-only fields (status code, notification flag,
    response headers, the request it answers), named as [ServeHTTP] and
    [WriteRespose] use them; its declaration is not in http.go. *)
Module ResponseObject.
Record t := mk {
  Jsonrpc : string;
  Error : option ErrorObject.t;
  Result : json;
  ID : json;
  notification : bool;
  statusCode : Z;
  headers : gmap string string;
  r : option Request.t
}.
Definition set_Error (v : option ErrorObject.t) (o : t) : t :=
  mk (Jsonrpc o) v (Result o) (ID o) (notification o) (statusCode o)
     (headers o) (r o).
Definition set_Result (v : json) (o : t) : t :=
  mk (Jsonrpc o) (Error o) v (ID o) (notification o) (statusCode o)
     (headers o) (r o).
Definition set_ID (v : json) (o : t) : t :=
  mk (Jsonrpc o) (Error o) (Result o) v (notification o) (statusCode o)
     (headers o) (r o).
Definition set_notification (v : bool) (o : t) : t :=
  mk (Jsonrpc o) (Error o) (Result o) (ID o) v (statusCode o)
     (headers o) (r o).
Definition set_statusCode (v : Z) (o : t) : t :=
  mk (Jsonrpc o) (Error o) (Result o) (ID o) (notification o) v
     (headers o) (r o).
Definition set_r (v : option Request.t) (o : t) : t :=
  mk (Jsonrpc o) (Error o) (Result o) (ID o) (notification o)
     (statusCode o) (headers o) v.
End ResponseObject.

(** The fields of [Service] that http.go reads: the static headers and
    the two hooks ([None] is Go's nil error). *)
Module Service.
Record t := mk {
  headers : gmap string string;
  req : Request.t -> string -> option error;
  resp : option Request.t -> string -> option error
}.
End Service.

(** Modelled from the spec: the code space of section 3, "-32700 parse
    error, -32600 invalid request". *)
Definition ParseErrorCode : Z := -32700.
Definition InvalidRequestCode : Z := -32600.

(** Declarations of package jrpc2 that http.go uses and does not
    contain: the remaining codes and the messages, the headers a new
    response object starts with, the three transport validators (each
    answers ok or not and may write into the response object), the
    marshaller, the status of a hook error, the method registry behind
    [Service.Call], and the [Data] of the version and id errors. *)
Class Package := {
  ParseErrorMessage : string;
  InvalidRequestMessage : string;
  NotImplementedCode : Z;
  NotImplementedMessage : string;
  InvalidMethodCode : Z;
  InvalidMethodMessage : string;
  DefaultHeaders : gmap string string;
  ValidateHTTPProtocolVersion :
    ResponseObject.t -> Request.t -> bool * ResponseObject.t;
  ValidateHTTPRequestMethod :
    ResponseObject.t -> Request.t -> bool * ResponseObject.t;
  ValidateHTTPRequestHeaders :
    ResponseObject.t -> Request.t -> bool * ResponseObject.t;
  Marshal : ResponseObject.t -> string;
  getHTTPCodeFromHookError : error -> Z;
  Call : Service.t -> string -> ParametersObject.t -> json * option ErrorObject.t;
  VersionErrorData : json;
  IDErrorData : json
}.

(** Modelled from the spec: [DefaultResponseObject] is not in http.go.
    A new response object is a non-notification "2.0" envelope with
    neither result, error nor id, to be delivered with status 200
    (section 6: "returns 200 with a JSON-RPC envelope on success or
    application error"). *)
Definition DefaultResponseObject `{Package} : ResponseObject.t :=
  ResponseObject.mk "2.0" None JNull JNull false StatusOK DefaultHeaders None.

(** Modelled from the spec: [ValidateJSONRPCVersionNumber] is not in
    http.go.  Section 4.3 step 7, "validate the JSON-RPC version field
    against the literal 2.0", a mismatch being an InvalidRequestError
    (sections 7 and 8). *)
Definition ValidateJSONRPCVersionNumber `{Package}
    (respObj : ResponseObject.t) (version : string)
  : bool * ResponseObject.t :=
  if String.eqb version "2.0" then (true, respObj)
  else (false,
        ResponseObject.set_Error
          (Some (ErrorObject.mk InvalidRequestCode InvalidRequestMessage
                                VersionErrorData))
          respObj).

(** Modelled from the spec: [ConvertIDtoString] is not in http.go.
    Section 4.1, coerceID: "accepts JSON string or JSON number; any
    other JSON type (object, array, boolean) fails with InvalidRequest";
    an absent id is the notification of step 9 and passes. *)
Definition ConvertIDtoString `{Package} (id : json)
  : string * option ErrorObject.t :=
  match id with
  | JNull => ("", None)
  | JString s => (s, None)
  | JNumber lit => (lit, None)
  | JBool _ | JArray _ | JObject _ =>
      ("", Some (ErrorObject.mk InvalidRequestCode InvalidRequestMessage
                                IDErrorData))
  end.

(** ** encoding/json: decoding a request body into [*RequestObject] *)

(** [foldName] of [encoding/json], on the UTF-8 bytes of a key: the case
    of ASCII letters is folded, and the two runes outside ASCII whose
    simple case folding reaches an ASCII letter are folded onto it, the
    long s U+017F (bytes 197 191) onto s and the Kelvin sign U+212A
    (bytes 226 132 170) onto k. Every other rune folds to a rune outside
    ASCII and is left as it is: it cannot match the name of a field. *)
Definition is_byte (c : ascii) (n : N) : bool := N.eqb (N_of_ascii c) n.

Fixpoint foldName (s : string) : string :=
  match s with
  | EmptyString => EmptyString
  | String a t =>
      match t with
      | EmptyString => String (lower a) EmptyString
      | String b u =>
          if is_byte a 197 && is_byte b 191 then String "s" (foldName u)
          else
            match u with
            | EmptyString => String (lower a) (foldName t)
            | String c v =>
                if is_byte a 226 && is_byte b 132 && is_byte c 170
                then String "k" (foldName v)
                else String (lower a) (foldName t)
            end
      end
  end.

(** The struct field a JSON key selects: the field whose name has the
    folded form of the key (the four names stay distinct under folding,
    so the exact and the folded match of [encoding/json] pick the same
    field); other keys are skipped. *)
Inductive field : Type := FJsonrpc | FMethod | FParams | FID.

Definition field_of_key (key : string) : option field :=
  let folded := foldName key in
  if String.eqb folded "jsonrpc" then Some FJsonrpc
  else if String.eqb folded "method" then Some FMethod
  else if String.eqb folded "params" then Some FParams
  else if String.eqb folded "id" then Some FID
  else None.

(** Storing a JSON value into a Go [string] field named [name]: a string
    is stored, null leaves the field alone, every other value is a type
    error that names what was found and the field. *)
Definition store_string (name : string) (v : json) (cur : string)
  : string * option error :=
  let mismatch found :=
    (cur, Some (UnmarshalTypeError found "string" "RequestObject" name)) in
  match v with
  | JString s => (s, None)
  | JNull => (cur, None)
  | JBool _ => mismatch "bool"
  | JNumber _ => mismatch "number"
  | JArray _ => mismatch "array"
  | JObject _ => mismatch "object"
  end.

(** [decodeState.saveError]: the first error is kept, decoding goes on. *)
Definition saveError (saved new : option error) : option error :=
  match saved with
  | Some e => Some e
  | None => new
  end.

(** [decodeState.object] on the struct: the members in document order. *)
Fixpoint object (members : list (string * json)) (o : RequestObject.t)
    (saved : option error) : RequestObject.t * option error :=
  match members with
  | [] => (o, saved)
  | (key, v) :: rest =>
      match field_of_key key with
      | None => object rest o saved
      | Some FJsonrpc =>
          let '(s, e) := store_string "jsonrpc" v (RequestObject.Jsonrpc o) in
          object rest (RequestObject.set_Jsonrpc s o) (saveError saved e)
      | Some FMethod =>
          let '(s, e) := store_string "method" v (RequestObject.Method o) in
          object rest (RequestObject.set_Method s o) (saveError saved e)
      | Some FParams => object rest (RequestObject.set_Params (Some v) o) saved
      | Some FID => object rest (RequestObject.set_ID v o) saved
      end
  end.

(** [json.Unmarshal(req, &reqObj)] with [reqObj] pointing at a zero
    struct: the pointer afterwards ([None] is nil) and the error.  The
    scanner runs over the whole text first; a top-level null sets the
    pointer to nil without error; an object fills the struct; any other
    top-level value is a type error against the struct type, outside any
    field. *)
Definition Unmarshal `{Runtime} (data : string)
  : option RequestObject.t * option error :=
  let mismatch found :=
    (Some RequestObject.zero,
     Some (UnmarshalTypeError found "jrpc2.RequestObject" "" "")) in
  match json_parse data with
  | inl msg => (Some RequestObject.zero, Some (SyntaxError msg))
  | inr JNull => (None, None)
  | inr (JObject members) =>
      let '(o, e) := object members RequestObject.zero None in (Some o, e)
  | inr (JArray _) => mismatch "array"
  | inr (JBool _) => mismatch "bool"
  | inr (JNumber _) => mismatch "number"
  | inr (JString _) => mismatch "string"
  end.

(** ** http.go *)

(** What a run leaves behind: the response writer, and the calls the
    run made to its collaborators, in order. *)
Inductive event : Type :=
  | ReqHook (body : string)
  | RespHook (resp : string)
  | Invoke (method : string) (p : ParametersObject.t)
  | Transmit (respObj : ResponseObject.t).

Record World := mkWorld {
  writer : ResponseWriter;
  trace : list event
}.

Definition log (e : event) (σ : World) : World :=
  mkWorld (writer σ) (trace σ ++ [e]).

Definition on_writer (f : ResponseWriter -> ResponseWriter) (σ : World) : World :=
  mkWorld (f (writer σ)) (trace σ).

(** [func (s *Service) WriteRespose(w http.ResponseWriter, respObj *ResponseObject)]. *)
Definition WriteRespose `{Runtime} `{Package}
    (s : Service.t) (σ : World) (respObj : ResponseObject.t) : World :=
  let σ := log (Transmit respObj) σ in
  (* set custom response headers *)
  let σ := on_writer (set_headers (Service.headers s)) σ in
  (* set dynamic response headers *)
  let σ := on_writer (set_headers (ResponseObject.headers respObj)) σ in
  (* notification does not send responses to client *)
  if ResponseObject.notification respObj then
    on_writer (WriteHeader StatusNoContent) σ
  else
    (* get response bytes *)
    let resp := Marshal respObj in
    (* run response hook function *)
    let σ := log (RespHook resp) σ in
    match Service.resp s (ResponseObject.r respObj) resp with
    | Some err => on_writer (WriteHeader (getHTTPCodeFromHookError err)) σ
    | None =>
        let σ := on_writer (WriteHeader (ResponseObject.statusCode respObj)) σ in
        let '(w, err) := Write resp (writer σ) in
        let σ := mkWorld w (trace σ) in
        match err with
        | Some _ => on_writer (WriteHeader StatusInternalServerError) σ
        | None => σ
        end
    end.

(** How a run of the handler ends: it returns, or it stops at a nil
    pointer dereference. *)
Inductive outcome : Type :=
  | Returned (σ : World)
  | Panicked (σ : World).

Definition final (o : outcome) : World :=
  match o with
  | Returned σ => σ
  | Panicked σ => σ
  end.

(** [func (s *Service) ServeHTTP(w http.ResponseWriter, r *http.Request)]. *)
Definition ServeHTTP `{Runtime} `{Package}
    (s : Service.t) (σ : World) (r : Request.t) : outcome :=
  (* create default response object, set pointer to HTTP request object *)
  let respObj := ResponseObject.set_r (Some r) DefaultResponseObject in
  (* read request body as early as possible *)
  match ReadAll (Request.Body r) with
  | (_, Some err) =>
      let respObj := ResponseObject.set_statusCode StatusBadRequest respObj in
      let respObj :=
        ResponseObject.set_Error
          (Some (ErrorObject.mk ParseErrorCode ParseErrorMessage
                                (JString (Error err)))) respObj in
      Returned (WriteRespose s σ respObj)
  | (req, None) =>
  (* run request hook function *)
  let σ := log (ReqHook req) σ in
  match Service.req s r req with
  | Some err =>
      Returned (on_writer (WriteHeader (getHTTPCodeFromHookError err)) σ)
  | None =>
  (* check HTTP protocol version *)
  let '(ok, respObj) := ValidateHTTPProtocolVersion respObj r in
  if negb ok then Returned (WriteRespose s σ respObj) else
  (* check request Method *)
  let '(ok, respObj) := ValidateHTTPRequestMethod respObj r in
  if negb ok then Returned (WriteRespose s σ respObj) else
  (* check request headers *)
  let '(ok, respObj) := ValidateHTTPRequestHeaders respObj r in
  if negb ok then Returned (WriteRespose s σ respObj) else
  (* decode request body *)
  let '(reqObj, err) := Unmarshal req in
  match err with
  | Some err =>
      (* prepare default error object *)
      let respObj :=
        ResponseObject.set_Error
          (Some (ErrorObject.mk ParseErrorCode ParseErrorMessage
                                (JString (Error err)))) respObj in
      match err with
      | UnmarshalTypeError Value _ _ Field =>
          if String.eqb Value "array" then
            (* array data, batch request *)
            let respObj :=
              ResponseObject.set_Error
                (Some (ErrorObject.mk NotImplementedCode NotImplementedMessage
                         (JString "batch requests not supported"))) respObj in
            Returned (WriteRespose s σ respObj)
          else if String.eqb Field "method" then
            (* invalid data type for method *)
            let respObj :=
              ResponseObject.set_Error
                (Some (ErrorObject.mk InvalidMethodCode InvalidMethodMessage
                         (JString "method data type must be string"))) respObj in
            Returned (WriteRespose s σ respObj)
          else
            (* other data type error *)
            Returned (WriteRespose s σ respObj)
      | _ => Returned (WriteRespose s σ respObj)
      end
  | None =>
  match reqObj with
  | None => Panicked σ (* reqObj.Jsonrpc through a nil pointer *)
  | Some reqObj =>
  (* validate JSON-RPC 2.0 request version member *)
  let '(ok, respObj) :=
    ValidateJSONRPCVersionNumber respObj (RequestObject.Jsonrpc reqObj) in
  if negb ok then Returned (WriteRespose s σ respObj) else
  (* parse ID member *)
  let '(_, errObj) := ConvertIDtoString (RequestObject.ID reqObj) in
  match errObj with
  | Some e => Returned (WriteRespose s σ (ResponseObject.set_Error (Some e) respObj))
  | None =>
  (* set response ID or notification flag *)
  let respObj :=
    match RequestObject.ID reqObj with
    | JNull => ResponseObject.set_notification true respObj
    | id => ResponseObject.set_ID id respObj
    end in
  (* prepare parameters object for named method *)
  let paramsObj :=
    ParametersObject.mk (RequestObject.ID reqObj) (RequestObject.Method reqObj)
                        (RequestObject.Params reqObj) r in
  (* invoke named method with the provided parameters *)
  let σ := log (Invoke (RequestObject.Method reqObj) paramsObj) σ in
  let '(result, errObj) := Call s (RequestObject.Method reqObj) paramsObj in
  let respObj := ResponseObject.set_Result result respObj in
  match errObj with
  | Some e => Returned (WriteRespose s σ (ResponseObject.set_Error (Some e) respObj))
  | None => Returned (WriteRespose s σ respObj)
  end
  end
  end
  end
  end
  end.

(** The world a request arrives in: the writer handed to the handler and
    nothing called yet. *)
Definition arrive (w : ResponseWriter) : World := mkWorld w [].

(** The three transport validators accept [r] and leave [respObj] as
    the response object. *)
Definition accepted `{Package} (r : Request.t) (respObj : ResponseObject.t) : Prop :=
  exists o1 o2,
    ValidateHTTPProtocolVersion
      (ResponseObject.set_r (Some r) DefaultResponseObject) r = (true, o1)
    /\ ValidateHTTPRequestMethod o1 r = (true, o2)
    /\ ValidateHTTPRequestHeaders o2 r = (true, respObj).

(** A request that gets as far as the decoder: its body is read in full
    as [data], the request hook lets it pass, and the transport
    validators accept it, leaving [respObj]. *)
Definition reaches_decoder `{Package} (s : Service.t) (r : Request.t)
    (data : string) (respObj : ResponseObject.t) : Prop :=
  ReadAll (Request.Body r) = (data, None)
  /\ Service.req s r data = None
  /\ accepted r respObj.

(** The response object a new request starts with. *)
Definition fresh_response `{Package} (r : Request.t) : ResponseObject.t :=
  ResponseObject.set_r (Some r) DefaultResponseObject.

(** The JSON types an id may not have. *)
Definition unsupported_id (id : json) : bool :=
  match id with
  | JBool _ | JArray _ | JObject _ => true
  | JNull | JNumber _ | JString _ => false
  end.

(** The registry was called during the run that left [σ]. *)
Definition invoked (σ : World) : Prop :=
  exists method p, Invoke method p ∈ trace σ.

(** [WriteRespose] was entered during the run that left [σ]. *)
Definition transmitted (σ : World) : Prop :=
  exists respObj, Transmit respObj ∈ trace σ.

(** The response objects handed to [WriteRespose] and the calls of the
    registry during a run, as the trace has them. *)
Definition transmissions (events : list event) : list ResponseObject.t :=
  omap (fun e => match e with Transmit o => Some o | _ => None end) events.

Definition invocations (events : list event)
  : list (string * ParametersObject.t) :=
  omap (fun e => match e with Invoke m p => Some (m, p) | _ => None end) events.

(** The name [encoding/json] gives the type of a value in a type error. *)
Definition json_kind (v : json) : string :=
  match v with
  | JNull => "null"
  | JBool _ => "bool"
  | JNumber _ => "number"
  | JString _ => "string"
  | JArray _ => "array"
  | JObject _ => "object"
  end.

(** The values a Go [string] field takes without a type error. *)
Definition fits_string (v : json) : bool :=
  match v with
  | JString _ | JNull => true
  | JBool _ | JNumber _ | JArray _ | JObject _ => false
  end.

(** A type error at the method field that did not find an array. *)
Definition method_mismatch (e : option error) : Prop :=
  exists found type_ struct_,
    e = Some (UnmarshalTypeError found type_ struct_ "method")
    /\ found <> "array".

(** The top-level values that are neither null, an array nor an object. *)
Definition is_scalar (v : json) : bool :=
  match v with
  | JBool _ | JNumber _ | JString _ => true
  | JNull | JArray _ | JObject _ => false
  end.

(** One of the three transport validators rejects [r], the ones before
    it having accepted, and leaves [respObj] as the response object. *)
Definition rejected `{Package} (r : Request.t) (respObj : ResponseObject.t) : Prop :=
  ValidateHTTPProtocolVersion
    (ResponseObject.set_r (Some r) DefaultResponseObject) r = (false, respObj)
  \/ (exists o1,
        ValidateHTTPProtocolVersion
          (ResponseObject.set_r (Some r) DefaultResponseObject) r = (true, o1)
        /\ ValidateHTTPRequestMethod o1 r = (false, respObj))
  \/ (exists o1 o2,
        ValidateHTTPProtocolVersion
          (ResponseObject.set_r (Some r) DefaultResponseObject) r = (true, o1)
        /\ ValidateHTTPRequestMethod o1 r = (true, o2)
        /\ ValidateHTTPRequestHeaders o2 r = (false, respObj)).

(** ** Package client *)

Module client.

(** Modelled from the spec: the client's request envelope; its
    declaration is not in the client's source file.  [Params] is a
    [json.RawMessage] ([None] is nil), [ID] a string. *)
Module RequestObject.
Record t := mk {
  Jsonrpc : string;
  Method : string;
  Params : option string;
  ID : string
}.
End RequestObject.

(** Modelled from the spec: the ErrorObject a response can carry. *)
Module ErrorObject.
Record t := mk {
  Code : Z;
  Message : string;
  Data : json
}.
End ErrorObject.

(** Modelled from the spec: the client's response envelope, with the
    fields [Call] reads. *)
Module ResponseObject.
Record t := mk {
  Jsonrpc : string;
  ID : string;
  Error : option ErrorObject.t;
  Result : option string
}.
End ResponseObject.

(** Modelled from the spec: the client's InternalError, which wraps a
    cause and can carry the observed and expected status codes, ids and
    protocol versions (section 4.2, steps 4 to 7); [NewInternalError]
    and the three setters are not in the client's source file. *)
Module InternalError.
Record t := mk {
  prefix : string;
  cause : option error;
  HTTPStatusCodes : option (Z * Z);
  RPCIDs : option (string * string);
  ProtocolVersions : option (string * string)
}.
End InternalError.

Definition NewInternalError (prefix : string) (err : option error)
  : InternalError.t :=
  InternalError.mk prefix err None None None.

Definition SetHTTPStatusCodes (e : InternalError.t) (observed expected : Z)
  : InternalError.t :=
  InternalError.mk (InternalError.prefix e) (InternalError.cause e)
    (Some (observed, expected)) (InternalError.RPCIDs e)
    (InternalError.ProtocolVersions e).

Definition SetRPCIDs (e : InternalError.t) (observed expected : string)
  : InternalError.t :=
  InternalError.mk (InternalError.prefix e) (InternalError.cause e)
    (InternalError.HTTPStatusCodes e) (Some (observed, expected))
    (InternalError.ProtocolVersions e).

Definition SetProtocolVersions (e : InternalError.t) (observed expected : string)
  : InternalError.t :=
  InternalError.mk (InternalError.prefix e) (InternalError.cause e)
    (InternalError.HTTPStatusCodes e) (InternalError.RPCIDs e)
    (Some (observed, expected)).

(** The [error] that [Call] returns holds one of two things. *)
Inductive call_error : Type :=
  | Internal (e : InternalError.t)
  | Remote (e : ErrorObject.t).

(** The fields of [Config] that [Call] reads ([httpClient] goes to the
    transport as part of the configuration). *)
Module Config.
Record t := mk {
  uri : string;
  headers : gmap string string;
  disableCompression : bool;
  socketPath : option string;
  timeout : Z
}.
End Config.

Module HTTPRequest.
Record t := mk {
  Method : string;
  URL : string;
  Header : gmap string string;
  Body : string
}.
Definition set_Header (h : gmap string string) (q : t) : t :=
  mk (Method q) (URL q) h (Body q).
End HTTPRequest.

Module HTTPResponse.
Record t := mk {
  StatusCode : Z;
  Body : Reader
}.
End HTTPResponse.

(** What [Call] relies on and does not contain: the error prefix and the
    id generator of the package, [json.Marshal] of the request object,
    the URL check of [http.NewRequest], the exchange [ctxhttp.Do] under
    the configured timeout, and [json.Unmarshal] into a response
    object. *)
Class Environment := {
  ErrorPrefix : string;
  genUUID : string;
  Marshal : RequestObject.t -> error + string;
  ParseURL : string -> option error;
  Do : Config.t -> HTTPRequest.t -> error + HTTPResponse.t;
  Unmarshal : string -> error + ResponseObject.t
}.

(** [http.NewRequest(method, url, body)]. *)
Definition NewRequest `{Environment} (method url body : string)
  : error + HTTPRequest.t :=
  match ParseURL url with
  | Some err => inl err
  | None => inr (HTTPRequest.mk method url ∅ body)
  end.

(** [req.Header.Set(key, value)]. *)
Definition req_Header_Set `{Runtime} (key value : string) (q : HTTPRequest.t)
  : HTTPRequest.t :=
  HTTPRequest.set_Header (Header_Set key value (HTTPRequest.Header q)) q.

(** [getRequestObject] creates JSON-RPC request object. *)
Definition getRequestObject `{Environment} (method : string)
    (params : option string) : RequestObject.t :=
  RequestObject.mk "2.0" method params genUUID.

(** Lines 46-60 of the client's source: the configured headers, the
    compression header unless it is disabled, and the two loopback
    headers when a socket path is configured. *)
Definition set_request_headers `{Runtime} (c : Config.t) (q : HTTPRequest.t)
  : HTTPRequest.t :=
  (* setting specified headers *)
  let q := foldl (fun q kv => req_Header_Set kv.1 kv.2 q) q
                 (range (Config.headers c)) in
  (* set compression header *)
  let q := if negb (Config.disableCompression c)
           then req_Header_Set "Content-Encoding" "gzip" q else q in
  (* add X-Real-IP, X-Client-IP, when using unix sockets mode *)
  match Config.socketPath c with
  | Some _ => req_Header_Set "X-Client-IP" "127.0.0.1"
                (req_Header_Set "X-Real-IP" "127.0.0.1" q)
  | None => q
  end.

(** The calls a run of [Call] makes to the outside, in order. *)
Inductive event : Type :=
  | Sent (q : HTTPRequest.t)
  | ReadBody
  | Decoded (data : string)
  | Closed
  | Cancelled.

Definition fail_with (e : InternalError.t) : option string * option call_error :=
  (None, Some (Internal e)).

(** [func (c *Config) Call(method string, params json.RawMessage) (json.RawMessage, error)]:
    the two results and the trace of the run. *)
Definition Call `{Runtime} `{Environment}
    (c : Config.t) (method : string) (params : option string)
  : (option string * option call_error) * list event :=
  (* prepare request object *)
  let reqObj := getRequestObject method params in
  (* convert request object to bytes *)
  match Marshal reqObj with
  | inl err => (fail_with (NewInternalError ErrorPrefix (Some err)), [])
  | inr reqData =>
  (* set request type to POST *)
  match NewRequest "POST" (Config.uri c) reqData with
  | inl err => (fail_with (NewInternalError ErrorPrefix (Some err)), [])
  | inr q =>
  (* setting specified headers, compression header, X-Real-IP, X-Client-IP *)
  let q := set_request_headers c q in
  (* send request; cancel is deferred from here on *)
  match Do c q with
  | inl err =>
      (fail_with (NewInternalError ErrorPrefix (Some err)), [Sent q; Cancelled])
  | inr resp =>
  (* fail when HTTP status code is different from 200 *)
  if negb (Z.eqb (HTTPResponse.StatusCode resp) StatusOK) then
    (fail_with (SetHTTPStatusCodes (NewInternalError ErrorPrefix None)
                  (HTTPResponse.StatusCode resp) StatusOK),
     [Sent q; Closed; Cancelled])
  else
  (* read response raw bytes data *)
  match ReadAll (HTTPResponse.Body resp) with
  | (_, Some err) =>
      (fail_with (NewInternalError ErrorPrefix (Some err)),
       [Sent q; ReadBody; Closed; Cancelled])
  | (respData, None) =>
  (* convert response data to object *)
  match Unmarshal respData with
  | inl err =>
      (fail_with (NewInternalError ErrorPrefix (Some err)),
       [Sent q; ReadBody; Decoded respData; Closed; Cancelled])
  | inr respObj =>
  let events := [Sent q; ReadBody; Decoded respData; Closed; Cancelled] in
  (* validate request/response IDs *)
  if negb (EqualFold (RequestObject.ID reqObj) (ResponseObject.ID respObj)) then
    (fail_with (SetRPCIDs (NewInternalError ErrorPrefix None)
                  (ResponseObject.ID respObj) (RequestObject.ID reqObj)), events)
  (* validate request/response Jsonrpc protocol versions *)
  else if negb (EqualFold (RequestObject.Jsonrpc reqObj)
                          (ResponseObject.Jsonrpc respObj)) then
    (fail_with (SetProtocolVersions (NewInternalError ErrorPrefix None)
                  (ResponseObject.Jsonrpc respObj) (RequestObject.Jsonrpc reqObj)),
     events)
  else
  (* check response error *)
  match ResponseObject.Error respObj with
  | Some e => ((None, Some (Remote e)), events)
  | None => ((ResponseObject.Result respObj, None), events)
  end
  end
  end
  end
  end
  end.

(** The call gets as far as a response: the request object is
    marshalled, the request [q] is built and sent, and the transport
    comes back with [resp]. *)
Definition answered `{Runtime} `{Environment} (c : Config.t) (method : string)
    (params : option string) (q : HTTPRequest.t) (resp : HTTPResponse.t) : Prop :=
  exists reqData q0,
    Marshal (getRequestObject method params) = inr reqData
    /\ NewRequest "POST" (Config.uri c) reqData = inr q0
    /\ q = set_request_headers c q0
    /\ Do c q = inr resp.

(** The call gets as far as a decoded envelope: the response has status
    200, its body is read in full and decodes to [respObj]. *)
Definition decoded `{Runtime} `{Environment} (c : Config.t) (method : string)
    (params : option string) (respObj : ResponseObject.t) : Prop :=
  exists q resp data,
    answered c method params q resp
    /\ HTTPResponse.StatusCode resp = StatusOK
    /\ ReadAll (HTTPResponse.Body resp) = (data, None)
    /\ Unmarshal data = inr respObj.

(** The requests sent during a run, the bodies read and the texts
    decoded, as the trace has them. *)
Definition requests_sent (events : list event) : list HTTPRequest.t :=
  omap (fun e => match e with Sent q => Some q | _ => None end) events.

Definition texts_decoded (events : list event) : list string :=
  omap (fun e => match e with Decoded data => Some data | _ => None end) events.

End client.

(** ** A reference environment

    One runtime, one set of package declarations and one client
    environment to run the definitions on concrete requests. *)

Module sample.

(** JSON texts below are written with an apostrophe where the text has a
    double quote. *)
Fixpoint js (s : string) : string :=
  match s with
  | EmptyString => EmptyString
  | String c s' => String (if Ascii.eqb c "'"%char then "034"%char else c) (js s')
  end.

Definition upper (c : ascii) : ascii :=
  let n := N_of_ascii c in
  if ((97 <=? n) && (n <=? 122))%N then ascii_of_N (n - 32) else c.

(** The bytes of an HTTP token: letters, digits and a few marks. *)
Definition validHeaderFieldByte (c : ascii) : bool :=
  let n := N_of_ascii c in
  ((97 <=? n) && (n <=? 122))%N || ((65 <=? n) && (n <=? 90))%N
  || ((48 <=? n) && (n <=? 57))%N
  || existsb (Ascii.eqb c) (list_ascii_of_string "!#$%&'*+-.^_`|~").

Fixpoint canonical (up : bool) (s : string) : string :=
  match s with
  | EmptyString => EmptyString
  | String c s' =>
      String (if up then upper c else lower c) (canonical (Ascii.eqb c "-"%char) s')
  end.

(** [textproto.CanonicalMIMEHeaderKey]: a key made of token bytes gets
    its first letter and every letter after a hyphen in upper case and
    the others in lower case; any other key is returned as it is. *)
Definition canonicalMIMEHeaderKey (s : string) : string :=
  if forallb validHeaderFieldByte (list_ascii_of_string s)
  then canonical true s else s.

(** The request bodies of the examples, each with the value it spells. *)
Definition body_batch : string :=
  js "[{'jsonrpc':'2.0','method':'echo','id':1},{'jsonrpc':'2.0','method':'echo','id':2}]".
Definition body_method_array : string :=
  js "{'jsonrpc':'2.0','method':['echo'],'id':1}".
Definition body_old_version : string :=
  js "{'jsonrpc':'1.0','method':'echo','params':{'x':1},'id':'abc'}".
Definition body_bool_id : string :=
  js "{'jsonrpc':'2.0','method':'echo','id':true}".
Definition body_echo : string :=
  js "{'jsonrpc':'2.0','method':'echo','params':{'x':1},'id':'abc'}".
Definition body_notify_unknown : string :=
  js "{'jsonrpc':'2.0','method':'missing'}".

Definition call (version : string) (method : json) (id : json) : json :=
  JObject [("jsonrpc", JString version); ("method", method); ("id", id)].

Definition texts : list (string * json) :=
  [ (body_batch,
     JArray [call "2.0" (JString "echo") (JNumber "1");
             call "2.0" (JString "echo") (JNumber "2")]);
    (body_method_array, call "2.0" (JArray [JString "echo"]) (JNumber "1"));
    (body_old_version,
     JObject [("jsonrpc", JString "1.0"); ("method", JString "echo");
              ("params", JObject [("x", JNumber "1")]); ("id", JString "abc")]);
    (body_bool_id, call "2.0" (JString "echo") (JBool true));
    (body_echo,
     JObject [("jsonrpc", JString "2.0"); ("method", JString "echo");
              ("params", JObject [("x", JNumber "1")]); ("id", JString "abc")]);
    (body_notify_unknown,
     JObject [("jsonrpc", JString "2.0"); ("method", JString "missing")]);
    ("null", JNull) ].

(** The scanner of this runtime knows the texts of [texts]; every other
    text is answered with a syntax error. *)
Definition scan (data : string) : string + json :=
  match find (fun tv => String.eqb tv.1 data) texts with
  | Some tv => inr tv.2
  | None => inl "invalid character looking for beginning of value"
  end.

(** Maps are visited in the order of their entry list. *)
Definition runtime : Runtime :=
  Build_Runtime canonicalMIMEHeaderKey map_to_list
                (fun m => Permutation_refl (map_to_list m)) scan.

(** A printer for JSON values (strings are printed as they are). *)
Fixpoint print (j : json) : string :=
  match j with
  | JNull => "null"
  | JBool b => if b then "true" else "false"
  | JNumber lit => lit
  | JString s => js "'" +:+ s +:+ js "'"
  | JArray elems =>
      "[" +:+ String.concat "," (map print elems) +:+ "]"
  | JObject members =>
      "{" +:+ String.concat ","
                (map (fun kv => js "'" +:+ kv.1 +:+ js "':" +:+ print kv.2) members)
          +:+ "}"
  end.

(** The envelope on the wire: the error when there is one, the result
    otherwise, then the id. *)
Definition marshal (o : ResponseObject.t) : string :=
  js "{'jsonrpc':'" +:+ ResponseObject.Jsonrpc o +:+ js "',"
  +:+ match ResponseObject.Error o with
      | Some e =>
          js "'error':{'code':" +:+ pretty (ErrorObject.Code e)
          +:+ js ",'message':'" +:+ ErrorObject.Message e
          +:+ js "','data':" +:+ print (ErrorObject.Data e) +:+ "}"
      | None => js "'result':" +:+ print (ResponseObject.Result o)
      end
  +:+ js ",'id':" +:+ print (ResponseObject.ID o) +:+ "}".

Definition reject (status : Z) (why : string) (o : ResponseObject.t)
  : bool * ResponseObject.t :=
  (false,
   ResponseObject.set_Error
     (Some (ErrorObject.mk InvalidRequestCode "Invalid Request" (JString why)))
     (ResponseObject.set_statusCode status o)).

(** HTTP/1.1 and HTTP/2.0 are served, POST is the verb, and the content
    type must be JSON. *)
Definition validate_protocol (o : ResponseObject.t) (r : Request.t)
  : bool * ResponseObject.t :=
  if String.eqb (Request.Proto r) "HTTP/1.1" || String.eqb (Request.Proto r) "HTTP/2.0"
  then (true, o) else reject 505 "HTTP protocol version not supported" o.

Definition validate_method (o : ResponseObject.t) (r : Request.t)
  : bool * ResponseObject.t :=
  if String.eqb (Request.Method r) "POST" then (true, o)
  else reject 405 "request method must be POST" o.

Definition validate_headers (o : ResponseObject.t) (r : Request.t)
  : bool * ResponseObject.t :=
  match Request.Header r !! "Content-Type" with
  | Some "application/json" => (true, o)
  | _ => reject 415 "Content-Type must be application/json" o
  end.

(** A registry with one method, echo, which returns its parameters. *)
Definition registry (s : Service.t) (method : string) (p : ParametersObject.t)
  : json * option ErrorObject.t :=
  if String.eqb method "echo"
  then (default JNull (ParametersObject.params p), None)
  else (JNull, Some (ErrorObject.mk (-32601) "Method not found" (JString method))).

Definition package : Package := {|
  ParseErrorMessage := "Parse error";
  InvalidRequestMessage := "Invalid Request";
  NotImplementedCode := -32604;
  NotImplementedMessage := "Not implemented";
  InvalidMethodCode := -32099;
  InvalidMethodMessage := "Invalid method";
  DefaultHeaders := {[ "Content-Type" := "application/json" ]};
  ValidateHTTPProtocolVersion := validate_protocol;
  ValidateHTTPRequestMethod := validate_method;
  ValidateHTTPRequestHeaders := validate_headers;
  Marshal := marshal;
  getHTTPCodeFromHookError := fun _ => StatusInternalServerError;
  Call := registry;
  VersionErrorData := JString "jsonrpc request member must be exactly 2.0";
  IDErrorData := JString "ID data type must be string or number"
|}.

Definition no_hook {A : Type} (r : A) (data : string) : option error := None.
Definition failing_hook {A : Type} (r : A) (data : string) : option error :=
  Some (errorString "request refused").

(** A service with one static header and no hooks, and the same service
    behind a request hook that refuses every request. *)
Definition service : Service.t :=
  Service.mk {[ "X-Frame-Options" := "DENY" ]} no_hook no_hook.
Definition guarded_service : Service.t :=
  Service.mk {[ "X-Frame-Options" := "DENY" ]} failing_hook no_hook.

Definition post (body : string) : Request.t :=
  Request.mk "POST" "HTTP/1.1" {[ "Content-Type" := "application/json" ]}
             (mkReader body None).

(** The client side: a server that is unavailable, one that answers
    with the id of another call and an error, one that answers in the
    old protocol version, and one that echoes. *)
Definition uuid : string := "6ba7b810-9dad-11d1-80b4-00c04fd430c8".

Definition reply_echo : string :=
  js "{'jsonrpc':'2.0','result':{'x':1},'id':'6BA7B810-9DAD-11D1-80B4-00C04FD430C8'}".
Definition reply_other_id : string :=
  js "{'jsonrpc':'2.0','error':{'code':-32601,'message':'Method not found'},'id':'another-call'}".
Definition reply_old_version : string :=
  js "{'jsonrpc':'1.0','result':{'x':1},'id':'6ba7b810-9dad-11d1-80b4-00c04fd430c8'}".

Definition transport (c : client.Config.t) (q : client.HTTPRequest.t)
  : error + client.HTTPResponse.t :=
  let url := client.HTTPRequest.URL q in
  if String.eqb url "http://unavailable.test/rpc"
  then inr (client.HTTPResponse.mk 503 (mkReader reply_echo None))
  else if String.eqb url "http://other-id.test/rpc"
  then inr (client.HTTPResponse.mk 200 (mkReader reply_other_id None))
  else if String.eqb url "http://old-version.test/rpc"
  then inr (client.HTTPResponse.mk 200 (mkReader reply_old_version None))
  else if String.eqb url "http://echo.test/rpc"
  then inr (client.HTTPResponse.mk 200 (mkReader reply_echo None))
  else inl (errorString "dial tcp: no such host").

Definition replies : list (string * client.ResponseObject.t) :=
  [ (reply_echo,
     client.ResponseObject.mk "2.0" "6BA7B810-9DAD-11D1-80B4-00C04FD430C8" None
       (Some (js "{'x':1}")));
    (reply_other_id,
     client.ResponseObject.mk "2.0" "another-call"
       (Some (client.ErrorObject.mk (-32601) "Method not found" JNull)) None);
    (reply_old_version,
     client.ResponseObject.mk "1.0" uuid None (Some (js "{'x':1}"))) ].

Definition decode_reply (data : string) : error + client.ResponseObject.t :=
  match find (fun tv => String.eqb tv.1 data) replies with
  | Some tv => inr tv.2
  | None => inl (SyntaxError "invalid character looking for beginning of value")
  end.

Definition encode_request (o : client.RequestObject.t) : error + string :=
  inr (js "{'jsonrpc':'" +:+ client.RequestObject.Jsonrpc o
       +:+ js "','method':'" +:+ client.RequestObject.Method o
       +:+ js "','params':" +:+ default "null" (client.RequestObject.Params o)
       +:+ js ",'id':'" +:+ client.RequestObject.ID o +:+ js "'}").

Definition environment : client.Environment := {|
  client.ErrorPrefix := "jrpc2 client";
  client.genUUID := uuid;
  client.Marshal := encode_request;
  client.ParseURL := fun _ => None;
  client.Do := transport;
  client.Unmarshal := decode_reply
|}.

Definition config (uri : string) : client.Config.t :=
  client.Config.mk uri {[ "Content-Type" := "application/json" ]} false None 30.

(** The call of echo with [{"x":1}] against the server at [uri]. *)
Definition invoke (uri : string)
  : (option string * option client.call_error) * list client.event :=
  @client.Call runtime environment (config uri) "echo" (Some (js "{'x':1}")).

(** The request that call sends. *)
Definition request (uri : string) : client.HTTPRequest.t :=
  client.HTTPRequest.mk "POST" uri
    {[ "Content-Type" := "application/json"; "Content-Encoding" := "gzip" ]}
    (js "{'jsonrpc':'2.0','method':'echo','params':{'x':1},'id':'6ba7b810-9dad-11d1-80b4-00c04fd430c8'}").

(** A POST of [body] to service [s] on a new connection. *)
Definition serve (s : Service.t) (body : string) : outcome :=
  @ServeHTTP runtime package s (arrive (new_writer false)) (post body).

(** The response object such a request starts with. *)
Definition response (body : string) : ResponseObject.t :=
  @fresh_response package (post body).

End sample.

(** More requests, services and servers for the reference environment. *)
Module cases.

Definition body_number : string := "42".
Definition body_method_number : string :=
  sample.js "{'jsonrpc':'2.0','method':7,'id':1}".

(** The long s (U+017F) and the Kelvin sign (U+212A) in UTF-8, and two
    requests that spell the version member with a long s. *)
Definition long_s : string := String "197" (String "191" EmptyString).
Definition kelvin : string :=
  String "226" (String "132" (String "170" EmptyString)).
Definition body_long_s_version : string :=
  sample.js "{'j" +:+ long_s +:+ sample.js "onrpc':'2.0','method':'echo','id':1}".
Definition body_long_s_number : string :=
  sample.js "{'j" +:+ long_s +:+ sample.js "onrpc':5,'method':7}".

Definition texts : list (string * json) :=
  [ (body_number, JNumber "42");
    (body_method_number, sample.call "2.0" (JNumber "7") (JNumber "1"));
    (body_long_s_version,
     JObject [("j" +:+ long_s +:+ "onrpc", JString "2.0");
              ("method", JString "echo"); ("id", JNumber "1")]);
    (body_long_s_number,
     JObject [("j" +:+ long_s +:+ "onrpc", JNumber "5");
              ("method", JNumber "7")]) ].

(** The scanner knows these texts besides the ones of [sample.texts]. *)
Definition scan (data : string) : string + json :=
  match find (fun tv => String.eqb tv.1 data) texts with
  | Some tv => inr tv.2
  | None => sample.scan data
  end.

Definition runtime : Runtime :=
  Build_Runtime sample.canonicalMIMEHeaderKey map_to_list
                (fun m => Permutation_refl (map_to_list m)) scan.

(** A GET, and a POST whose body breaks off while it is read. *)
Definition get (body : string) : Request.t :=
  Request.mk "GET" "HTTP/1.1" {[ "Content-Type" := "application/json" ]}
             (mkReader body None).
Definition cut_off (body : string) : Request.t :=
  Request.mk "POST" "HTTP/1.1" {[ "Content-Type" := "application/json" ]}
             (mkReader body (Some (errorString "unexpected EOF"))).

(** The service of [sample] behind a response hook that refuses every
    response, and the same service with a second static header. *)
Definition vetoing_service : Service.t :=
  Service.mk {[ "X-Frame-Options" := "DENY" ]} sample.no_hook sample.failing_hook.
Definition two_header_service : Service.t :=
  Service.mk {[ "X-Frame-Options" := "DENY"; "Cache-Control" := "no-store" ]}
             sample.no_hook sample.no_hook.

Definition handle (s : Service.t) (w : ResponseWriter) (r : Request.t) : outcome :=
  @ServeHTTP runtime sample.package s (arrive w) r.

(** A connection that fails on the first write after taking 14 bytes. *)
Definition failing_writer : ResponseWriter := mkWriter ∅ None ∅ EmptyString true 14.

(** The client side: parameters that do not marshal, a URI that does not
    parse, a server whose reply is no JSON and one whose reply breaks
    off. *)
Definition encode_request (o : client.RequestObject.t) : error + string :=
  match client.RequestObject.Params o with
  | Some "{" => inl (errorString "json: error calling MarshalJSON for type json.RawMessage")
  | _ => sample.encode_request o
  end.

Definition parse_url (uri : string) : option error :=
  if String.eqb uri "::bad" then Some (errorString "parse: missing protocol scheme")
  else None.

Definition transport (c : client.Config.t) (q : client.HTTPRequest.t)
  : error + client.HTTPResponse.t :=
  let url := client.HTTPRequest.URL q in
  if String.eqb url "http://garbled.test/rpc"
  then inr (client.HTTPResponse.mk 200 (mkReader "<html>" None))
  else if String.eqb url "http://cut-off.test/rpc"
  then inr (client.HTTPResponse.mk 200
              (mkReader "{" (Some (errorString "unexpected EOF"))))
  else sample.transport c q.

Definition environment : client.Environment := {|
  client.ErrorPrefix := "jrpc2 client";
  client.genUUID := sample.uuid;
  client.Marshal := encode_request;
  client.ParseURL := parse_url;
  client.Do := transport;
  client.Unmarshal := sample.decode_reply
|}.

(** A configuration that overrides the compression header and talks
    over a unix socket. *)
Definition socket_config : client.Config.t :=
  client.Config.mk "http://echo.test/rpc"
    {[ "content-encoding" := "identity"; "X-Real-IP" := "10.0.0.7" ]}
    false (Some "/run/jrpc2.sock") 30.

Definition invoke (uri : string) (params : option string)
  : (option string * option client.call_error) * list client.event :=
  @client.Call runtime environment (sample.config uri) "echo" params.

End cases.

(** * Properties of the dispatcher *)

Section Dispatcher.
Context `{Runtime} `{Package}.

(** ** Headers *)

(** The header map after [Set] for each entry of a list, in order. *)
Lemma set_headers_fields (m : gmap string string) (w : ResponseWriter) :
  w_header (set_headers m w)
    = foldl (fun h hv => Header_Set hv.1 hv.2 h) (w_header w) (range m)
  /\ w_status (set_headers m w) = w_status w
  /\ w_sent (set_headers m w) = w_sent w
  /\ w_body (set_headers m w) = w_body w
  /\ w_broken (set_headers m w) = w_broken w.
Proof.
  unfold set_headers. generalize (range m) as l. intros l. revert w.
  induction l as [|[k v] l IH]; intros w; simpl; [done|].
  destruct (IH (w_Header_Set k v w)) as (Hh & Hs & Hn & Hb & Hk).
  rewrite Hh, Hs, Hn, Hb, Hk. done.
Qed.

(** After a run of [Set] over a list that holds a key of some canonical
    form, that form carries the value of an entry of the list with that
    canonical form. *)
Lemma foldl_Header_Set_lookup (l : list (string * string)) (h : gmap string string)
    (k v : string) :
  (k, v) ∈ l ->
  exists k' v', (k', v') ∈ l
    /\ CanonicalMIMEHeaderKey k' = CanonicalMIMEHeaderKey k
    /\ foldl (fun h hv => Header_Set hv.1 hv.2 h) h l
          !! CanonicalMIMEHeaderKey k = Some v'.
Proof.
  induction l as [|[k0 v0] l IH] using rev_ind; intros Hin.
  - by apply elem_of_nil in Hin.
  - rewrite foldl_app. simpl. unfold Header_Set at 1.
    destruct (decide (CanonicalMIMEHeaderKey k0 = CanonicalMIMEHeaderKey k)) as [Heq|Hne].
    + exists k0, v0. split; [apply elem_of_app; right; by apply list_elem_of_singleton|].
      split; [done|].
      rewrite Heq. apply lookup_insert_eq.
    + apply elem_of_app in Hin as [Hin|Hin].
      * destruct (IH Hin) as (k' & v' & Hin' & Hc & Hl).
        exists k', v'. split; [apply elem_of_app; by left|]. split; [done|].
        by rewrite lookup_insert_ne.
      * apply list_elem_of_singleton in Hin. congruence.
Qed.

Lemma elem_of_range (m : gmap string string) (k v : string) :
  (k, v) ∈ range m <-> m !! k = Some v.
Proof. rewrite (range_perm m). apply elem_of_map_to_list. Qed.

(** ** Transmission *)

Lemma WriteRespose_trace (s : Service.t) (σ : World) (respObj : ResponseObject.t) :
  trace (WriteRespose s σ respObj)
    = (trace σ ++ Transmit respObj
         :: (if ResponseObject.notification respObj then []
             else [RespHook (Marshal respObj)]))%list.
Proof.
  unfold WriteRespose.
  destruct (ResponseObject.notification respObj); simpl; [done|].
  destruct (Service.resp s _ _); simpl.
  - by rewrite <- app_assoc.
  - destruct (Write _ _) as [w [e|]]; simpl; by rewrite <- app_assoc.
Qed.

(** What goes out with the status line: the header map after the static
    and then the dynamic headers. *)
Lemma WriteRespose_sent (s : Service.t) (σ : World) (respObj : ResponseObject.t) :
  w_status (writer σ) = None ->
  w_sent (writer (WriteRespose s σ respObj))
    = w_header (set_headers (ResponseObject.headers respObj)
                  (set_headers (Service.headers s) (writer σ))).
Proof.
  intros Hfresh. unfold WriteRespose.
  set (w2 := set_headers (ResponseObject.headers respObj)
               (set_headers (Service.headers s) (writer σ))).
  assert (Hs : w_status w2 = None).
  { unfold w2.
    destruct (set_headers_fields (ResponseObject.headers respObj)
                (set_headers (Service.headers s) (writer σ))) as (_ & -> & _).
    destruct (set_headers_fields (Service.headers s) (writer σ)) as (_ & -> & _).
    done. }
  destruct (ResponseObject.notification respObj); simpl.
  - fold w2. unfold WriteHeader. by rewrite Hs.
  - destruct (Service.resp s _ _); simpl.
    + fold w2. unfold WriteHeader. by rewrite Hs.
    + fold w2. unfold Write, WriteHeader. rewrite Hs. simpl.
      destruct (w_broken w2); simpl; done.
Qed.

(** A response that is no notification, on a working connection and past
    the response hook, goes out with its status code and its bytes. *)
Lemma WriteRespose_delivers (s : Service.t) (σ : World) (respObj : ResponseObject.t) :
  w_status (writer σ) = None ->
  w_broken (writer σ) = false ->
  ResponseObject.notification respObj = false ->
  Service.resp s (ResponseObject.r respObj) (Marshal respObj) = None ->
  w_status (writer (WriteRespose s σ respObj))
    = Some (ResponseObject.statusCode respObj)
  /\ w_body (writer (WriteRespose s σ respObj))
       = w_body (writer σ) +:+ Marshal respObj.
Proof.
  intros Hfresh Hconn Hnote Hhook. unfold WriteRespose.
  rewrite Hnote, Hhook. simpl.
  set (w2 := set_headers (ResponseObject.headers respObj)
               (set_headers (Service.headers s) (writer σ))).
  assert (Hw2 : w_status w2 = None /\ w_body w2 = w_body (writer σ)
                /\ w_broken w2 = false).
  { unfold w2.
    destruct (set_headers_fields (ResponseObject.headers respObj)
                (set_headers (Service.headers s) (writer σ)))
      as (_ & -> & _ & -> & ->).
    destruct (set_headers_fields (Service.headers s) (writer σ))
      as (_ & -> & _ & -> & ->).
    done. }
  destruct Hw2 as (Hs & Hb & Hk).
  unfold Write, WriteHeader. rewrite Hs. simpl. rewrite Hk. simpl.
  by rewrite Hb.
Qed.

(** C4. A response object marked as a notification is transmitted as
    HTTP 204 and no byte of body is written, whatever else the object
    holds: its error field plays no part, nothing is marshalled and the
    response hook is not run. *)
Theorem notification_is_204_without_body
    (s : Service.t) (σ : World) (respObj : ResponseObject.t) :
  ResponseObject.notification respObj = true ->
  w_status (writer σ) = None ->
  w_status (writer (WriteRespose s σ respObj)) = Some StatusNoContent
  /\ w_body (writer (WriteRespose s σ respObj)) = w_body (writer σ)
  /\ trace (WriteRespose s σ respObj) = (trace σ ++ [Transmit respObj])%list.
Proof.
  intros Hnote Hfresh.
  split; [|split].
  - unfold WriteRespose. rewrite Hnote. simpl. unfold WriteHeader.
    destruct (set_headers_fields (ResponseObject.headers respObj)
                (set_headers (Service.headers s) (writer σ))) as (_ & -> & _).
    destruct (set_headers_fields (Service.headers s) (writer σ)) as (_ & -> & _).
    by rewrite Hfresh.
  - unfold WriteRespose. rewrite Hnote. simpl. unfold WriteHeader.
    destruct (set_headers_fields (ResponseObject.headers respObj)
                (set_headers (Service.headers s) (writer σ)))
      as (_ & Hs & _ & Hb & _).
    destruct (set_headers_fields (Service.headers s) (writer σ))
      as (_ & Hs' & _ & Hb' & _).
    rewrite Hs, Hs', Hfresh. simpl. by rewrite Hb, Hb'.
  - rewrite WriteRespose_trace. by rewrite Hnote.
Qed.

(** C7. On every transmitted response the static headers of the service
    are set first and the headers of the response object second: the
    header map that goes out is the writer's map after both runs of
    [Set], in that order.  So a header name that the response object
    defines carries a value of the response object on the response,
    whatever the service gave it; that value is the one the response
    object gives the name itself when no other of its keys has the same
    canonical form. *)
Theorem dynamic_headers_override_static
    (s : Service.t) (σ : World) (respObj : ResponseObject.t) :
  w_status (writer σ) = None ->
  w_sent (writer (WriteRespose s σ respObj))
    = foldl (fun h hv => Header_Set hv.1 hv.2 h)
        (foldl (fun h hv => Header_Set hv.1 hv.2 h) (w_header (writer σ))
               (range (Service.headers s)))
        (range (ResponseObject.headers respObj))
  /\ (forall name vs vd,
        Service.headers s !! name = Some vs ->
        ResponseObject.headers respObj !! name = Some vd ->
        exists k v,
          ResponseObject.headers respObj !! k = Some v
          /\ CanonicalMIMEHeaderKey k = CanonicalMIMEHeaderKey name
          /\ w_sent (writer (WriteRespose s σ respObj))
               !! CanonicalMIMEHeaderKey name = Some v)
  /\ (forall name vs vd,
        Service.headers s !! name = Some vs ->
        ResponseObject.headers respObj !! name = Some vd ->
        (forall k, is_Some (ResponseObject.headers respObj !! k) ->
                   CanonicalMIMEHeaderKey k = CanonicalMIMEHeaderKey name ->
                   k = name) ->
        w_sent (writer (WriteRespose s σ respObj))
          !! CanonicalMIMEHeaderKey name = Some vd).
Proof.
  intros Hfresh.
  assert (Hsent : w_sent (writer (WriteRespose s σ respObj))
    = foldl (fun h hv => Header_Set hv.1 hv.2 h)
        (foldl (fun h hv => Header_Set hv.1 hv.2 h) (w_header (writer σ))
               (range (Service.headers s)))
        (range (ResponseObject.headers respObj))).
  { rewrite WriteRespose_sent by done.
    destruct (set_headers_fields (ResponseObject.headers respObj)
                (set_headers (Service.headers s) (writer σ))) as (-> & _).
    by destruct (set_headers_fields (Service.headers s) (writer σ)) as (-> & _). }
  assert (Hdyn : forall name vd,
    ResponseObject.headers respObj !! name = Some vd ->
    exists k v,
      ResponseObject.headers respObj !! k = Some v
      /\ CanonicalMIMEHeaderKey k = CanonicalMIMEHeaderKey name
      /\ w_sent (writer (WriteRespose s σ respObj))
           !! CanonicalMIMEHeaderKey name = Some v).
  { intros name vd Hd. rewrite Hsent.
    apply elem_of_range in Hd.
    destruct (foldl_Header_Set_lookup _
                (foldl (fun h hv => Header_Set hv.1 hv.2 h) (w_header (writer σ))
                       (range (Service.headers s))) _ _ Hd)
      as (k & v & Hin & Hc & Hl).
    exists k, v. by rewrite <- elem_of_range. }
  split; [done|]. split.
  - intros name vs vd _ Hd. by apply (Hdyn name vd).
  - intros name vs vd _ Hd Huniq.
    destruct (Hdyn name vd Hd) as (k & v & Hk & Hc & Hl).
    assert (k = name) as -> by (apply Huniq; [by exists v|done]).
    congruence.
Qed.

(** ** The validation pipeline *)

(** Stepping a run of [ServeHTTP] up to the decoder. *)
Ltac enter_decoder Hreach :=
  let Hread := fresh "Hread" in
  let Hhook := fresh "Hhook" in
  let o1 := fresh "o1" in
  let o2 := fresh "o2" in
  let Hv1 := fresh "Hv1" in
  let Hv2 := fresh "Hv2" in
  let Hv3 := fresh "Hv3" in
  destruct Hreach as (Hread & Hhook & o1 & o2 & Hv1 & Hv2 & Hv3);
  unfold fresh_response in *;
  unfold ServeHTTP; rewrite Hread, Hhook, Hv1; simpl;
  rewrite Hv2; simpl; rewrite Hv3; simpl.

Lemma no_invoke_after_hook (s : Service.t) (w : ResponseWriter) (data : string)
    (respObj : ResponseObject.t) :
  ~ invoked (WriteRespose s (log (ReqHook data) (arrive w)) respObj).
Proof.
  intros (method & p & Hin). rewrite WriteRespose_trace in Hin. simpl in Hin.
  apply elem_of_cons in Hin as [Hin|Hin]; [done|].
  apply elem_of_cons in Hin as [Hin|Hin]; [done|].
  destruct (ResponseObject.notification respObj).
  - by apply elem_of_nil in Hin.
  - apply list_elem_of_singleton in Hin. done.
Qed.

(** C1. A request that reaches the decoder with a body that is a
    top-level JSON array is answered through [WriteRespose] with the
    error object of code [NotImplementedCode] ("batch requests not
    supported"), and not with the parse error set just before; on a
    working connection and past the response hook these are the bytes
    the client receives. *)
Theorem batch_request_is_not_implemented
    (s : Service.t) (w : ResponseWriter) (r : Request.t) (data : string)
    (elems : list json) (respObj0 : ResponseObject.t) :
  reaches_decoder s r data respObj0 ->
  json_parse data = inr (JArray elems) ->
  NotImplementedCode <> ParseErrorCode ->
  let respObj :=
    ResponseObject.set_Error
      (Some (ErrorObject.mk NotImplementedCode NotImplementedMessage
               (JString "batch requests not supported"))) respObj0 in
  ServeHTTP s (arrive w) r
    = Returned (WriteRespose s (log (ReqHook data) (arrive w)) respObj)
  /\ ErrorObject.Code <$> ResponseObject.Error respObj = Some NotImplementedCode
  /\ ErrorObject.Code <$> ResponseObject.Error respObj <> Some ParseErrorCode
  /\ (w_status w = None -> w_broken w = false ->
      ResponseObject.notification respObj0 = false ->
      Service.resp s (ResponseObject.r respObj0) (Marshal respObj) = None ->
      w_body (writer (final (ServeHTTP s (arrive w) r)))
        = w_body w +:+ Marshal respObj).
Proof.
  intros Hreach Hparse Hcodes respObj.
  assert (Hrun : ServeHTTP s (arrive w) r
    = Returned (WriteRespose s (log (ReqHook data) (arrive w)) respObj)).
  { enter_decoder Hreach. unfold Unmarshal. rewrite Hparse. done. }
  split; [done|]. split; [done|]. split.
  - simpl. congruence.
  - intros Hfresh Hconn Hnote Hresp. rewrite Hrun. simpl.
    by apply WriteRespose_delivers.
Qed.

(** C2. A request that reaches the decoder untouched by the validators,
    decodes without error and carries a version other than "2.0" is
    answered through [WriteRespose] with the InvalidRequest error and
    status code 200, and the method registry is not called during the
    run; on a working connection and past the response hook the client
    receives status 200 and that envelope. *)
Theorem version_mismatch_is_invalid_request
    (s : Service.t) (w : ResponseWriter) (r : Request.t) (data : string)
    (reqObj : RequestObject.t) :
  reaches_decoder s r data (fresh_response r) ->
  Unmarshal data = (Some reqObj, None) ->
  RequestObject.Jsonrpc reqObj <> "2.0" ->
  let respObj :=
    ResponseObject.set_Error
      (Some (ErrorObject.mk InvalidRequestCode InvalidRequestMessage
               VersionErrorData)) (fresh_response r) in
  ServeHTTP s (arrive w) r
    = Returned (WriteRespose s (log (ReqHook data) (arrive w)) respObj)
  /\ ResponseObject.statusCode respObj = StatusOK
  /\ ErrorObject.Code <$> ResponseObject.Error respObj = Some InvalidRequestCode
  /\ ~ invoked (final (ServeHTTP s (arrive w) r))
  /\ (w_status w = None -> w_broken w = false ->
      Service.resp s (Some r) (Marshal respObj) = None ->
      w_status (writer (final (ServeHTTP s (arrive w) r))) = Some StatusOK
      /\ w_body (writer (final (ServeHTTP s (arrive w) r)))
           = w_body w +:+ Marshal respObj).
Proof.
  intros Hreach Hdec Hver respObj.
  assert (Hrun : ServeHTTP s (arrive w) r
    = Returned (WriteRespose s (log (ReqHook data) (arrive w)) respObj)).
  { enter_decoder Hreach. rewrite Hdec. simpl.
    unfold ValidateJSONRPCVersionNumber.
    destruct (String.eqb_spec (RequestObject.Jsonrpc reqObj) "2.0") as [Heq|_];
      [done|]. done. }
  split; [done|]. split; [done|]. split; [done|]. split.
  - rewrite Hrun. simpl. apply no_invoke_after_hook.
  - intros Hfresh Hconn Hresp. rewrite Hrun. simpl.
    by apply WriteRespose_delivers.
Qed.

(** C9, as the code has it. A request that reaches the decoder untouched
    by the validators, decodes without error, carries version "2.0" and
    an id that is a boolean, an array or an object is answered through
    [WriteRespose] with the InvalidRequest error of the id coercion. The
    id of that response is the null id the response object started with,
    not the id of the request; the response is no notification, and the
    method registry is not called. *)
Theorem unsupported_id_is_answered_with_null_id
    (s : Service.t) (w : ResponseWriter) (r : Request.t) (data : string)
    (reqObj : RequestObject.t) :
  reaches_decoder s r data (fresh_response r) ->
  Unmarshal data = (Some reqObj, None) ->
  RequestObject.Jsonrpc reqObj = "2.0" ->
  unsupported_id (RequestObject.ID reqObj) = true ->
  let respObj :=
    ResponseObject.set_Error
      (Some (ErrorObject.mk InvalidRequestCode InvalidRequestMessage IDErrorData))
      (fresh_response r) in
  ServeHTTP s (arrive w) r
    = Returned (WriteRespose s (log (ReqHook data) (arrive w)) respObj)
  /\ ResponseObject.ID respObj = JNull
  /\ ResponseObject.ID respObj <> RequestObject.ID reqObj
  /\ ResponseObject.notification respObj = false
  /\ ~ invoked (final (ServeHTTP s (arrive w) r)).
Proof.
  intros Hreach Hdec Hver Hid respObj.
  assert (Hrun : ServeHTTP s (arrive w) r
    = Returned (WriteRespose s (log (ReqHook data) (arrive w)) respObj)).
  { enter_decoder Hreach. rewrite Hdec. simpl.
    unfold ValidateJSONRPCVersionNumber. rewrite Hver. simpl.
    destruct (RequestObject.ID reqObj); simpl in *; done. }
  split; [done|]. split; [done|]. split.
  - simpl. destruct (RequestObject.ID reqObj); simpl in *; done.
  - split; [done|]. rewrite Hrun. simpl. apply no_invoke_after_hook.
Qed.

(** A type error that found an array is answered as a batch request,
    whichever field it names; a type error on the method field that
    found anything else is answered as an invalid method. *)
Lemma array_type_error_is_batch
    (s : Service.t) (w : ResponseWriter) (r : Request.t) (data : string)
    (respObj0 : ResponseObject.t) (o : option RequestObject.t)
    (type_ struct_ field_ : string) :
  reaches_decoder s r data respObj0 ->
  Unmarshal data = (o, Some (UnmarshalTypeError "array" type_ struct_ field_)) ->
  ServeHTTP s (arrive w) r
    = Returned (WriteRespose s (log (ReqHook data) (arrive w))
        (ResponseObject.set_Error
           (Some (ErrorObject.mk NotImplementedCode NotImplementedMessage
                    (JString "batch requests not supported"))) respObj0)).
Proof.
  intros Hreach Hdec. enter_decoder Hreach. rewrite Hdec. done.
Qed.

Lemma method_type_error_is_invalid_method
    (s : Service.t) (w : ResponseWriter) (r : Request.t) (data : string)
    (respObj0 : ResponseObject.t) (o : option RequestObject.t)
    (found type_ struct_ : string) :
  reaches_decoder s r data respObj0 ->
  Unmarshal data = (o, Some (UnmarshalTypeError found type_ struct_ "method")) ->
  found <> "array" ->
  ServeHTTP s (arrive w) r
    = Returned (WriteRespose s (log (ReqHook data) (arrive w))
        (ResponseObject.set_Error
           (Some (ErrorObject.mk InvalidMethodCode InvalidMethodMessage
                    (JString "method data type must be string"))) respObj0)).
Proof.
  intros Hreach Hdec Hfound. enter_decoder Hreach. rewrite Hdec. simpl.
  destruct (String.eqb_spec found "array"); [done|]. done.
Qed.

(** A body that spells null leaves the request pointer nil: the run
    stops at the read of [reqObj.Jsonrpc], with nothing written. *)
Lemma null_body_stops_the_run
    (s : Service.t) (w : ResponseWriter) (r : Request.t) (data : string)
    (respObj0 : ResponseObject.t) :
  reaches_decoder s r data respObj0 ->
  json_parse data = inr JNull ->
  ServeHTTP s (arrive w) r = Panicked (log (ReqHook data) (arrive w)).
Proof.
  intros Hreach Hparse. enter_decoder Hreach.
  unfold Unmarshal. rewrite Hparse. done.
Qed.

(** Neither the hook nor the registry enters [WriteRespose]. *)
Ltac no_transmit :=
  let ro := fresh "ro" in
  let Hin := fresh "Hin" in
  intros (ro & Hin); simpl in Hin;
  repeat (apply elem_of_cons in Hin as [Hin|Hin]; [done|]);
  by apply elem_of_nil in Hin.

(** A run that ends in [Returned (WriteRespose s σ respObj)]. *)
Ltac by_transmission :=
  intros [= <-]; eexists _, _; split; [done|]; split; [done|]; no_transmit.

(** C6, as the code has it. A request hook that fails ends the run with
    a bare status: [WriteHeader] with the status of the hook error on
    the writer as it came, [WriteRespose] not entered, so what goes out
    is the header map the writer came with. Every other run that
    returns ends in one call of [WriteRespose] on the writer as it came,
    so the static and then the dynamic headers go out with the status
    line. *)
Theorem transmission_on_all_paths_but_request_hook
    (s : Service.t) (w : ResponseWriter) (r : Request.t) :
  (forall data err,
     ReadAll (Request.Body r) = (data, None) ->
     Service.req s r data = Some err ->
     ServeHTTP s (arrive w) r
       = Returned (mkWorld (WriteHeader (getHTTPCodeFromHookError err) w)
                           [ReqHook data])
     /\ ~ transmitted (final (ServeHTTP s (arrive w) r))
     /\ (w_status w = None ->
         w_sent (writer (final (ServeHTTP s (arrive w) r))) = w_header w))
  /\ (forall σ',
       ServeHTTP s (arrive w) r = Returned σ' ->
       (forall data, ReadAll (Request.Body r) = (data, None) ->
                     Service.req s r data = None) ->
       exists σ respObj,
         σ' = WriteRespose s σ respObj
         /\ writer σ = w
         /\ ~ transmitted σ
         /\ (w_status w = None ->
             w_sent (writer σ')
               = w_header (set_headers (ResponseObject.headers respObj)
                             (set_headers (Service.headers s) w)))).
Proof.
  split.
  - intros data err Hread Hhook.
    assert (Hrun : ServeHTTP s (arrive w) r
      = Returned (mkWorld (WriteHeader (getHTTPCodeFromHookError err) w)
                          [ReqHook data])).
    { unfold ServeHTTP. by rewrite Hread, Hhook. }
    split; [done|]. rewrite Hrun. simpl. split.
    + no_transmit.
    + intros Hfresh. unfold WriteHeader. by rewrite Hfresh.
  - intros σ' Hrun Hhook.
    assert (Hgoal : exists σ respObj,
      σ' = WriteRespose s σ respObj /\ writer σ = w /\ ~ transmitted σ).
    { revert Hrun. unfold ServeHTTP.
      destruct (ReadAll (Request.Body r)) as [data [e|]] eqn:Hread.
      { intros [= <-]. eexists _, _. split; [done|]. split; [done|]. no_transmit. }
      rewrite (Hhook data eq_refl).
      destruct (ValidateHTTPProtocolVersion _ r) as [[] o1]; simpl;
        [|by_transmission].
      destruct (ValidateHTTPRequestMethod o1 r) as [[] o2]; simpl;
        [|by_transmission].
      destruct (ValidateHTTPRequestHeaders o2 r) as [[] o3]; simpl;
        [|by_transmission].
      destruct (Unmarshal data) as [o [err|]].
      { destruct err as [msg|msg|found t st f];
          [by_transmission..|].
        destruct (String.eqb found "array");
          [by_transmission|].
        destruct (String.eqb f "method");
          by_transmission. }
      destruct o as [reqObj|]; [|done].
      destruct (ValidateJSONRPCVersionNumber o3 _) as [[] o4]; simpl;
        [|by_transmission].
      destruct (ConvertIDtoString _) as [str [e|]];
        [by_transmission|].
      destruct (Call s _ _) as [result [e|]];
        by_transmission. }
    destruct Hgoal as (σ & respObj & -> & Hw & Hnt).
    exists σ, respObj. split; [done|]. split; [done|]. split; [done|].
    intros Hfresh. rewrite <- Hw in *. by apply WriteRespose_sent.
Qed.

(** ** Further properties of transmission *)

Lemma set_headers_twice_fields (m1 m2 : gmap string string) (w : ResponseWriter) :
  w_status (set_headers m2 (set_headers m1 w)) = w_status w
  /\ w_sent (set_headers m2 (set_headers m1 w)) = w_sent w
  /\ w_body (set_headers m2 (set_headers m1 w)) = w_body w
  /\ w_broken (set_headers m2 (set_headers m1 w)) = w_broken w.
Proof.
  destruct (set_headers_fields m2 (set_headers m1 w)) as (_ & -> & -> & -> & ->).
  by destruct (set_headers_fields m1 w) as (_ & -> & -> & -> & ->).
Qed.

(** A run of [Set] over a list leaves alone every canonical name that no
    key of the list has. *)
Lemma foldl_Header_Set_other (l : list (string * string)) (h : gmap string string)
    (c : string) :
  (forall k v, (k, v) ∈ l -> CanonicalMIMEHeaderKey k <> c) ->
  foldl (fun h hv => Header_Set hv.1 hv.2 h) h l !! c = h !! c.
Proof.
  revert h. induction l as [|[k v] l IH]; intros h Hl; simpl; [done|].
  rewrite IH.
  - unfold Header_Set. simpl. apply lookup_insert_ne.
    apply (Hl k v). apply elem_of_cons. by left.
  - intros k' v' Hin. apply (Hl k' v'). apply elem_of_cons. by right.
Qed.

Lemma set_headers_accepts (m : gmap string string) (w : ResponseWriter) :
  w_accepts (set_headers m w) = w_accepts w.
Proof.
  unfold set_headers. generalize (range m) as l. intros l. revert w.
  induction l as [|[k v] l IH]; intros w; simpl; [done|]. by rewrite IH.
Qed.

(** What a connection takes of a text before it fails is a prefix of the
    text. *)
Lemma prefix_substring (n : nat) (t : string) :
  String.prefix (substring 0 n t) t = true.
Proof.
  revert n. induction t as [|c t IH]; intros [|n]; simpl; try done.
  destruct (ascii_dec c c); [apply IH|done].
Qed.

Lemma prefix_whole (t : string) : String.prefix t t = true.
Proof.
  induction t as [|c t IH]; simpl; [done|].
  destruct (ascii_dec c c); [apply IH|done].
Qed.

(** X11. When the response hook refuses the marshalled bytes of a
    response that is no notification, the client gets the status of the
    hook error and no body; the static and dynamic headers still go out
    with that status. *)
Theorem response_hook_veto_sends_bare_status
    (s : Service.t) (σ : World) (respObj : ResponseObject.t) (err : error) :
  ResponseObject.notification respObj = false ->
  Service.resp s (ResponseObject.r respObj) (Marshal respObj) = Some err ->
  w_status (writer σ) = None ->
  w_status (writer (WriteRespose s σ respObj))
    = Some (getHTTPCodeFromHookError err)
  /\ w_body (writer (WriteRespose s σ respObj)) = w_body (writer σ)
  /\ w_sent (writer (WriteRespose s σ respObj))
      = w_header (set_headers (ResponseObject.headers respObj)
                    (set_headers (Service.headers s) (writer σ))).
Proof.
  intros Hnote Hhook Hfresh.
  split; [|split; [|by apply WriteRespose_sent]].
  - unfold WriteRespose. rewrite Hnote, Hhook. simpl. unfold WriteHeader.
    destruct (set_headers_twice_fields (Service.headers s)
                (ResponseObject.headers respObj) (writer σ)) as (-> & _).
    by rewrite Hfresh.
  - unfold WriteRespose. rewrite Hnote, Hhook. simpl. unfold WriteHeader.
    destruct (set_headers_twice_fields (Service.headers s)
                (ResponseObject.headers respObj) (writer σ))
      as (Hs & _ & Hb & _).
    rewrite Hs, Hfresh. simpl. exact Hb.
Qed.

(** X12. When the write of the response bytes fails, the status line
    that went out is the status code of the response object: the
    [WriteHeader(500)] that follows the failed write comes after the
    header was sent and changes nothing. The body holds what the
    connection took of the marshalled bytes before it failed, a prefix
    of them that may be empty. *)
Theorem failed_write_keeps_the_status
    (s : Service.t) (σ : World) (respObj : ResponseObject.t) :
  ResponseObject.notification respObj = false ->
  Service.resp s (ResponseObject.r respObj) (Marshal respObj) = None ->
  w_status (writer σ) = None ->
  w_broken (writer σ) = true ->
  w_status (writer (WriteRespose s σ respObj))
    = Some (ResponseObject.statusCode respObj)
  /\ w_body (writer (WriteRespose s σ respObj))
      = w_body (writer σ)
        +:+ substring 0 (w_accepts (writer σ)) (Marshal respObj)
  /\ String.prefix (substring 0 (w_accepts (writer σ)) (Marshal respObj))
                   (Marshal respObj) = true.
Proof.
  intros Hnote Hhook Hfresh Hconn.
  split; [|split; [|apply prefix_substring]]; unfold WriteRespose;
    rewrite Hnote, Hhook; simpl;
    destruct (set_headers_twice_fields (Service.headers s)
                (ResponseObject.headers respObj) (writer σ))
      as (Hs & _ & Hb & Hk);
    unfold Write, WriteHeader; rewrite Hs, Hfresh; simpl; rewrite Hk, Hconn;
    simpl; [done|].
  by rewrite Hb, !set_headers_accepts.
Qed.

(** X13. A static header of the service whose name no header of the
    response object shares (up to the canonical form) goes out with a
    value of the service: with the value the service gives that name
    when no other static key has the same canonical form. *)
Theorem static_header_is_kept_unless_overridden
    (s : Service.t) (σ : World) (respObj : ResponseObject.t) (name vs : string) :
  w_status (writer σ) = None ->
  Service.headers s !! name = Some vs ->
  (forall k, is_Some (ResponseObject.headers respObj !! k) ->
             CanonicalMIMEHeaderKey k <> CanonicalMIMEHeaderKey name) ->
  (exists k v,
      Service.headers s !! k = Some v
      /\ CanonicalMIMEHeaderKey k = CanonicalMIMEHeaderKey name
      /\ w_sent (writer (WriteRespose s σ respObj))
           !! CanonicalMIMEHeaderKey name = Some v)
  /\ ((forall k, is_Some (Service.headers s !! k) ->
                 CanonicalMIMEHeaderKey k = CanonicalMIMEHeaderKey name ->
                 k = name) ->
      w_sent (writer (WriteRespose s σ respObj))
        !! CanonicalMIMEHeaderKey name = Some vs).
Proof.
  intros Hfresh Hstatic Hdyn.
  assert (Hsome : exists k v,
      Service.headers s !! k = Some v
      /\ CanonicalMIMEHeaderKey k = CanonicalMIMEHeaderKey name
      /\ w_sent (writer (WriteRespose s σ respObj))
           !! CanonicalMIMEHeaderKey name = Some v).
  { rewrite WriteRespose_sent by done.
    destruct (set_headers_fields (ResponseObject.headers respObj)
                (set_headers (Service.headers s) (writer σ))) as (-> & _).
    destruct (set_headers_fields (Service.headers s) (writer σ)) as (-> & _).
    rewrite foldl_Header_Set_other.
    - apply elem_of_range in Hstatic.
      destruct (foldl_Header_Set_lookup _ (w_header (writer σ)) _ _ Hstatic)
        as (k & v & Hin & Hc & Hl).
      exists k, v. by rewrite <- elem_of_range.
    - intros k v Hin. apply Hdyn. exists v. by apply elem_of_range. }
  split; [done|]. intros Huniq.
  destruct Hsome as (k & v & Hk & Hc & Hl).
  assert (k = name) as -> by (apply Huniq; [by exists v|done]).
  congruence.
Qed.

(** ** Further properties of the validation pipeline *)

Lemma WriteRespose_invocations (s : Service.t) (σ : World) (respObj : ResponseObject.t) :
  invocations (trace (WriteRespose s σ respObj)) = invocations (trace σ).
Proof.
  rewrite WriteRespose_trace. unfold invocations. rewrite omap_app. simpl.
  destruct (ResponseObject.notification respObj); simpl; by rewrite app_nil_r.
Qed.

Lemma WriteRespose_transmissions (s : Service.t) (σ : World) (respObj : ResponseObject.t) :
  transmissions (trace (WriteRespose s σ respObj))
    = (transmissions (trace σ) ++ [respObj])%list.
Proof.
  rewrite WriteRespose_trace. unfold transmissions. rewrite omap_app. simpl.
  by destruct (ResponseObject.notification respObj).
Qed.

(** X1. When the body of the request cannot be read to its end, the
    handler answers through [WriteRespose] with the parse error that
    carries the text of the read error and with status code 400; the
    request hook is not run and the registry is not called. On a
    working connection and past the response hook the client receives
    status 400 and that envelope. *)
Theorem unreadable_body_is_parse_error_400
    (s : Service.t) (w : ResponseWriter) (r : Request.t) (data : string)
    (err : error) :
  ReadAll (Request.Body r) = (data, Some err) ->
  let respObj :=
    ResponseObject.set_Error
      (Some (ErrorObject.mk ParseErrorCode ParseErrorMessage
               (JString (Error err))))
      (ResponseObject.set_statusCode StatusBadRequest (fresh_response r)) in
  ServeHTTP s (arrive w) r = Returned (WriteRespose s (arrive w) respObj)
  /\ trace (final (ServeHTTP s (arrive w) r))
      = [Transmit respObj; RespHook (Marshal respObj)]
  /\ (w_status w = None -> w_broken w = false ->
      Service.resp s (Some r) (Marshal respObj) = None ->
      w_status (writer (final (ServeHTTP s (arrive w) r)))
        = Some StatusBadRequest
      /\ w_body (writer (final (ServeHTTP s (arrive w) r)))
          = w_body w +:+ Marshal respObj).
Proof.
  intros Hread respObj.
  assert (Hrun : ServeHTTP s (arrive w) r
    = Returned (WriteRespose s (arrive w) respObj)).
  { unfold ServeHTTP. by rewrite Hread. }
  split; [done|]. rewrite Hrun. simpl. split.
  - by rewrite WriteRespose_trace.
  - intros Hfresh Hconn Hresp. by apply WriteRespose_delivers.
Qed.

(** X2. A request that one of the three transport validators rejects
    is answered through [WriteRespose] with the response object as that
    validator left it; it is the only response object transmitted, and
    the registry is not called. *)
Theorem rejected_request_is_answered_by_its_validator
    (s : Service.t) (w : ResponseWriter) (r : Request.t) (data : string)
    (respObj : ResponseObject.t) :
  ReadAll (Request.Body r) = (data, None) ->
  Service.req s r data = None ->
  rejected r respObj ->
  ServeHTTP s (arrive w) r
    = Returned (WriteRespose s (log (ReqHook data) (arrive w)) respObj)
  /\ transmissions (trace (final (ServeHTTP s (arrive w) r))) = [respObj]
  /\ invocations (trace (final (ServeHTTP s (arrive w) r))) = [].
Proof.
  intros Hread Hhook Hrej.
  assert (Hrun : ServeHTTP s (arrive w) r
    = Returned (WriteRespose s (log (ReqHook data) (arrive w)) respObj)).
  { unfold ServeHTTP. rewrite Hread, Hhook.
    destruct Hrej as [Hv1|[(o1 & Hv1 & Hv2)|(o1 & o2 & Hv1 & Hv2 & Hv3)]].
    - by rewrite Hv1.
    - rewrite Hv1. simpl. by rewrite Hv2.
    - rewrite Hv1. simpl. rewrite Hv2. simpl. by rewrite Hv3. }
  split; [done|]. rewrite Hrun. simpl.
  by rewrite WriteRespose_transmissions, WriteRespose_invocations.
Qed.

(** X3. A request that reaches the decoder with a body that is no JSON
    text is answered through [WriteRespose] with the parse error that
    carries the message of the syntax error; the registry is not
    called. *)
Theorem malformed_body_is_parse_error
    (s : Service.t) (w : ResponseWriter) (r : Request.t) (data msg : string)
    (respObj0 : ResponseObject.t) :
  reaches_decoder s r data respObj0 ->
  json_parse data = inl msg ->
  let respObj :=
    ResponseObject.set_Error
      (Some (ErrorObject.mk ParseErrorCode ParseErrorMessage (JString msg)))
      respObj0 in
  ServeHTTP s (arrive w) r
    = Returned (WriteRespose s (log (ReqHook data) (arrive w)) respObj)
  /\ invocations (trace (final (ServeHTTP s (arrive w) r))) = [].
Proof.
  intros Hreach Hparse respObj.
  assert (Hrun : ServeHTTP s (arrive w) r
    = Returned (WriteRespose s (log (ReqHook data) (arrive w)) respObj)).
  { enter_decoder Hreach. unfold Unmarshal. rewrite Hparse. done. }
  split; [done|]. rewrite Hrun. simpl. by rewrite WriteRespose_invocations.
Qed.

(** X4. A request that reaches the decoder with a body that is a
    top-level boolean, number or string is answered through
    [WriteRespose] with the parse error, whose data names the kind of
    value found and the request type; the registry is not called. *)
Theorem scalar_body_is_parse_error
    (s : Service.t) (w : ResponseWriter) (r : Request.t) (data : string)
    (v : json) (respObj0 : ResponseObject.t) :
  reaches_decoder s r data respObj0 ->
  json_parse data = inr v ->
  is_scalar v = true ->
  let respObj :=
    ResponseObject.set_Error
      (Some (ErrorObject.mk ParseErrorCode ParseErrorMessage
               (JString ("json: cannot unmarshal " +:+ json_kind v
                         +:+ " into Go value of type jrpc2.RequestObject"))))
      respObj0 in
  ServeHTTP s (arrive w) r
    = Returned (WriteRespose s (log (ReqHook data) (arrive w)) respObj)
  /\ invocations (trace (final (ServeHTTP s (arrive w) r))) = [].
Proof.
  intros Hreach Hparse Hscalar respObj.
  assert (Hrun : ServeHTTP s (arrive w) r
    = Returned (WriteRespose s (log (ReqHook data) (arrive w)) respObj)).
  { enter_decoder Hreach. unfold Unmarshal. rewrite Hparse.
    subst respObj. destruct v; simpl in *; done. }
  split; [done|]. rewrite Hrun. simpl. by rewrite WriteRespose_invocations.
Qed.

(** *** The decoder on an object *)

(** Once an error is saved, the rest of the object does not change it. *)
Lemma object_keeps_saved (members : list (string * json)) (o : RequestObject.t)
    (e : error) :
  (object members o (Some e)).2 = Some e.
Proof.
  revert o. induction members as [|[key v] rest IH]; intros o; simpl; [done|].
  destruct (field_of_key key) as [[]|]; try apply IH.
  - destruct (store_string "jsonrpc" v (RequestObject.Jsonrpc o)) as [str e'].
    apply IH.
  - destruct (store_string "method" v (RequestObject.Method o)) as [str e'].
    apply IH.
Qed.

(** With every version member a string or null and no method member an
    array, the only error the object can give is a type error at the
    method field that did not find an array. *)
Lemma object_error_is_method_mismatch (members : list (string * json))
    (o : RequestObject.t) (saved : option error) :
  (forall key v, (key, v) ∈ members -> field_of_key key = Some FJsonrpc ->
                 fits_string v = true) ->
  (forall key v, (key, v) ∈ members -> field_of_key key = Some FMethod ->
                 json_kind v <> "array") ->
  saved = None \/ method_mismatch saved ->
  (object members o saved).2 = None
  \/ method_mismatch (object members o saved).2.
Proof.
  revert o saved.
  induction members as [|[key v] rest IH]; intros o saved Hver Hmeth Hsaved;
    simpl; [done|].
  assert (Hver' : forall key v, (key, v) ∈ rest ->
            field_of_key key = Some FJsonrpc -> fits_string v = true).
  { intros k' v' Hin. apply Hver. apply elem_of_cons. by right. }
  assert (Hmeth' : forall key v, (key, v) ∈ rest ->
            field_of_key key = Some FMethod -> json_kind v <> "array").
  { intros k' v' Hin. apply Hmeth. apply elem_of_cons. by right. }
  assert (Hnone : saveError saved None = saved) by (by destruct saved).
  destruct (field_of_key key) as [[]|] eqn:Hkey; try by apply IH.
  - assert (Hfit : fits_string v = true).
    { apply (Hver key v); [apply elem_of_cons; by left|done]. }
    destruct v; simpl in Hfit; try discriminate; simpl; rewrite Hnone;
      by apply IH.
  - assert (Hkind : json_kind v <> "array").
    { apply (Hmeth key v); [apply elem_of_cons; by left|done]. }
    assert (Hnew : forall found, found <> "array" ->
              saveError saved
                (Some (UnmarshalTypeError found "string" "RequestObject" "method"))
                = None
              \/ method_mismatch
                   (saveError saved
                      (Some (UnmarshalTypeError found "string" "RequestObject"
                               "method")))).
    { intros found Hfound. right. destruct saved as [e|]; simpl.
      - by destruct Hsaved.
      - by eexists _, _, _. }
    destruct v; simpl; try (rewrite Hnone; by apply IH).
    + apply IH; [done|done|]. by apply Hnew.
    + apply IH; [done|done|]. by apply Hnew.
    + by simpl in Hkind.
    + apply IH; [done|done|]. by apply Hnew.
Qed.

(** A method member that is neither a string nor null leaves an error. *)
Lemma object_reports_method (members : list (string * json))
    (o : RequestObject.t) (saved : option error) :
  (exists key v, (key, v) ∈ members /\ field_of_key key = Some FMethod
                 /\ fits_string v = false) ->
  is_Some (object members o saved).2.
Proof.
  revert o saved.
  induction members as [|[key v] rest IH]; intros o saved (k & x & Hin & Hk & Hx).
  { by apply elem_of_nil in Hin. }
  simpl. apply elem_of_cons in Hin as [[= <- <-]|Hin].
  - rewrite Hk.
    destruct x; simpl in Hx; try discriminate; simpl;
      (destruct saved as [e|]; simpl; rewrite object_keeps_saved; by eexists).
  - assert (Hrest : exists key v, (key, v) ∈ rest
              /\ field_of_key key = Some FMethod /\ fits_string v = false)
      by (by exists k, x).
    destruct (field_of_key key) as [[]|]; try by apply IH.
    + destruct (store_string "jsonrpc" v (RequestObject.Jsonrpc o)). by apply IH.
    + destruct (store_string "method" v (RequestObject.Method o)). by apply IH.
Qed.

(** X5. A request that reaches the decoder with a JSON object in which
    the method member is a number, a boolean or an object, no method
    member is an array, and every version member is a string or null, is
    answered through [WriteRespose] with the error of code
    [InvalidMethodCode] ("method data type must be string"); the registry
    is not called. *)
Theorem non_string_method_is_invalid_method
    (s : Service.t) (w : ResponseWriter) (r : Request.t) (data : string)
    (members : list (string * json)) (respObj0 : ResponseObject.t) :
  reaches_decoder s r data respObj0 ->
  json_parse data = inr (JObject members) ->
  (forall key v, (key, v) ∈ members -> field_of_key key = Some FJsonrpc ->
                 fits_string v = true) ->
  (forall key v, (key, v) ∈ members -> field_of_key key = Some FMethod ->
                 json_kind v <> "array") ->
  (exists key v, (key, v) ∈ members /\ field_of_key key = Some FMethod
                 /\ fits_string v = false) ->
  let respObj :=
    ResponseObject.set_Error
      (Some (ErrorObject.mk InvalidMethodCode InvalidMethodMessage
               (JString "method data type must be string"))) respObj0 in
  ServeHTTP s (arrive w) r
    = Returned (WriteRespose s (log (ReqHook data) (arrive w)) respObj)
  /\ invocations (trace (final (ServeHTTP s (arrive w) r))) = [].
Proof.
  intros Hreach Hparse Hver Hmeth Hbad respObj.
  assert (Hrun : ServeHTTP s (arrive w) r
    = Returned (WriteRespose s (log (ReqHook data) (arrive w)) respObj)).
  { enter_decoder Hreach. unfold Unmarshal. rewrite Hparse.
    pose proof (object_reports_method members RequestObject.zero None Hbad)
      as [e He].
    pose proof (object_error_is_method_mismatch members RequestObject.zero None
                  Hver Hmeth (or_introl eq_refl)) as Herr.
    destruct (object members RequestObject.zero None) as [o e'].
    simpl in He, Herr. subst e'.
    destruct Herr as [Herr|(found & t & st & [= ->] & Hfound)]; [done|].
    simpl. destruct (String.eqb_spec found "array"); [done|]. done. }
  split; [done|]. rewrite Hrun. simpl. by rewrite WriteRespose_invocations.
Qed.

(** *** Past validation: the call of the registry *)

(** A request that passed every stage: the run up to the transmission. *)
Lemma ServeHTTP_validated
    (s : Service.t) (w : ResponseWriter) (r : Request.t) (data : string)
    (reqObj : RequestObject.t) (respObj0 : ResponseObject.t) :
  reaches_decoder s r data respObj0 ->
  Unmarshal data = (Some reqObj, None) ->
  RequestObject.Jsonrpc reqObj = "2.0" ->
  unsupported_id (RequestObject.ID reqObj) = false ->
  let p := ParametersObject.mk (RequestObject.ID reqObj)
             (RequestObject.Method reqObj) (RequestObject.Params reqObj) r in
  let called := Call s (RequestObject.Method reqObj) p in
  let addressed :=
    match RequestObject.ID reqObj with
    | JNull => ResponseObject.set_notification true respObj0
    | id => ResponseObject.set_ID id respObj0
    end in
  let answered := ResponseObject.set_Result called.1 addressed in
  ServeHTTP s (arrive w) r
    = Returned
        (WriteRespose s
           (log (Invoke (RequestObject.Method reqObj) p)
              (log (ReqHook data) (arrive w)))
           match called.2 with
           | Some e => ResponseObject.set_Error (Some e) answered
           | None => answered
           end).
Proof.
  intros Hreach Hdec Hver Hid p called addressed answered.
  enter_decoder Hreach. rewrite Hdec. simpl.
  unfold ValidateJSONRPCVersionNumber. rewrite Hver. simpl.
  subst called answered addressed p.
  destruct (RequestObject.ID reqObj) eqn:Hidv; simpl in Hid; try discriminate;
    simpl; destruct (Call s _ _) as [result [e|]]; done.
Qed.

Lemma WriteRespose_notification (s : Service.t) (σ : World) (respObj : ResponseObject.t) :
  ResponseObject.notification respObj = true ->
  w_status (writer σ) = None ->
  w_status (writer (WriteRespose s σ respObj)) = Some StatusNoContent
  /\ w_body (writer (WriteRespose s σ respObj)) = w_body (writer σ).
Proof.
  intros Hnote Hfresh. unfold WriteRespose. rewrite Hnote. simpl.
  destruct (set_headers_twice_fields (Service.headers s)
              (ResponseObject.headers respObj) (writer σ)) as (Hs & _ & Hb & _).
  unfold WriteHeader. rewrite Hs, Hfresh. simpl. by rewrite Hb.
Qed.

(** X6. A request that passed every stage and has no id (or the id
    null) is a notification: the registry is called once, with the
    method, the parameters and the request, and whatever it returns,
    result or error, the one response transmitted is marked as a
    notification, so the client gets status 204 and no body. *)
Theorem notification_calls_the_registry_and_gets_204
    (s : Service.t) (w : ResponseWriter) (r : Request.t) (data : string)
    (reqObj : RequestObject.t) (respObj0 : ResponseObject.t) :
  reaches_decoder s r data respObj0 ->
  Unmarshal data = (Some reqObj, None) ->
  RequestObject.Jsonrpc reqObj = "2.0" ->
  RequestObject.ID reqObj = JNull ->
  let p := ParametersObject.mk JNull (RequestObject.Method reqObj)
             (RequestObject.Params reqObj) r in
  invocations (trace (final (ServeHTTP s (arrive w) r)))
    = [(RequestObject.Method reqObj, p)]
  /\ (exists respObj,
        transmissions (trace (final (ServeHTTP s (arrive w) r))) = [respObj]
        /\ ResponseObject.notification respObj = true
        /\ ResponseObject.Result respObj
             = (Call s (RequestObject.Method reqObj) p).1)
  /\ (w_status w = None ->
      w_status (writer (final (ServeHTTP s (arrive w) r))) = Some StatusNoContent
      /\ w_body (writer (final (ServeHTTP s (arrive w) r))) = w_body w).
Proof.
  intros Hreach Hdec Hver Hid p.
  pose proof (ServeHTTP_validated s w r data reqObj respObj0 Hreach Hdec Hver)
    as Hrun.
  rewrite Hid in Hrun. specialize (Hrun eq_refl). cbv zeta in Hrun.
  fold p in Hrun. rewrite Hrun. simpl.
  rewrite WriteRespose_invocations, WriteRespose_transmissions. simpl.
  split; [done|]. split.
  - eexists. split; [done|].
    by destruct (Call s (RequestObject.Method reqObj) p) as [result [e|]].
  - intros Hfresh. apply WriteRespose_notification; [|done].
    by destruct (Call s (RequestObject.Method reqObj) p) as [result [e|]].
Qed.

(** X7. A request that passed every stage and has a string or a number
    as its id is answered under that id: the registry is called once,
    and the one response transmitted carries the id of the request and
    the result the registry returned, together with its error when it
    returned one. The status code and the notification flag are the ones
    the response object had before the call: an error of the registry
    does not change the status. *)
Theorem call_is_answered_under_its_id
    (s : Service.t) (w : ResponseWriter) (r : Request.t) (data : string)
    (reqObj : RequestObject.t) (respObj0 : ResponseObject.t) :
  reaches_decoder s r data respObj0 ->
  Unmarshal data = (Some reqObj, None) ->
  RequestObject.Jsonrpc reqObj = "2.0" ->
  json_kind (RequestObject.ID reqObj) = "string"
    \/ json_kind (RequestObject.ID reqObj) = "number" ->
  let p := ParametersObject.mk (RequestObject.ID reqObj)
             (RequestObject.Method reqObj) (RequestObject.Params reqObj) r in
  invocations (trace (final (ServeHTTP s (arrive w) r)))
    = [(RequestObject.Method reqObj, p)]
  /\ exists respObj,
       transmissions (trace (final (ServeHTTP s (arrive w) r))) = [respObj]
       /\ ResponseObject.ID respObj = RequestObject.ID reqObj
       /\ ResponseObject.Result respObj
            = (Call s (RequestObject.Method reqObj) p).1
       /\ ResponseObject.Error respObj
            = match (Call s (RequestObject.Method reqObj) p).2 with
              | Some e => Some e
              | None => ResponseObject.Error respObj0
              end
       /\ ResponseObject.statusCode respObj = ResponseObject.statusCode respObj0
       /\ ResponseObject.notification respObj
            = ResponseObject.notification respObj0.
Proof.
  intros Hreach Hdec Hver Hid p.
  pose proof (ServeHTTP_validated s w r data reqObj respObj0 Hreach Hdec Hver)
    as Hrun.
  assert (Hsup : unsupported_id (RequestObject.ID reqObj) = false).
  { destruct (RequestObject.ID reqObj); simpl in *; try done;
      destruct Hid; discriminate. }
  specialize (Hrun Hsup). cbv zeta in Hrun. fold p in Hrun.
  rewrite Hrun. simpl.
  rewrite WriteRespose_invocations, WriteRespose_transmissions. simpl.
  split; [done|]. eexists. split; [done|].
  destruct (RequestObject.ID reqObj) eqn:Hidv; simpl in Hid;
    try (destruct Hid; discriminate);
    by destruct (Call s (RequestObject.Method reqObj) p) as [result [e|]].
Qed.

(** *** Every run *)

(** The three ways a run ends: on the bare status of a failed request
    hook, at the nil pointer, or in one call of [WriteRespose] on the
    writer as it came. *)
Lemma ServeHTTP_shape (s : Service.t) (w : ResponseWriter) (r : Request.t) :
  (exists data err,
      ServeHTTP s (arrive w) r
        = Returned (mkWorld (WriteHeader (getHTTPCodeFromHookError err) w)
                            [ReqHook data]))
  \/ (exists data,
        ServeHTTP s (arrive w) r = Panicked (mkWorld w [ReqHook data]))
  \/ (exists σ respObj,
        ServeHTTP s (arrive w) r = Returned (WriteRespose s σ respObj)
        /\ writer σ = w
        /\ transmissions (trace σ) = []).
Proof.
  unfold ServeHTTP.
  destruct (ReadAll (Request.Body r)) as [data [e|]].
  { right. right. by eexists _, _. }
  destruct (Service.req s r data) as [e|].
  { left. by eexists _, _. }
  destruct (ValidateHTTPProtocolVersion _ r) as [[] o1]; simpl;
    [|right; right; by eexists _, _].
  destruct (ValidateHTTPRequestMethod o1 r) as [[] o2]; simpl;
    [|right; right; by eexists _, _].
  destruct (ValidateHTTPRequestHeaders o2 r) as [[] o3]; simpl;
    [|right; right; by eexists _, _].
  destruct (Unmarshal data) as [o [err|]].
  { right. right. destruct err as [msg|msg|found t st f]; [by eexists _, _..|].
    destruct (String.eqb found "array"); [by eexists _, _|].
    destruct (String.eqb f "method"); by eexists _, _. }
  destruct o as [reqObj|]; [|right; left; by eexists].
  right. right.
  destruct (ValidateJSONRPCVersionNumber o3 _) as [[] o4]; simpl;
    [|by eexists _, _].
  destruct (ConvertIDtoString _) as [str [e|]]; [by eexists _, _|].
  destruct (Call s _ _) as [result [e|]]; by eexists _, _.
Qed.

Lemma WriteRespose_sends_status (s : Service.t) (σ : World) (respObj : ResponseObject.t) :
  is_Some (w_status (writer (WriteRespose s σ respObj))).
Proof.
  assert (Hwh : forall code w, is_Some (w_status (WriteHeader code w))).
  { intros code w0. unfold WriteHeader.
    destruct (w_status w0) eqn:Hs; simpl; [by rewrite Hs|done]. }
  unfold WriteRespose.
  destruct (ResponseObject.notification respObj); simpl; [apply Hwh|].
  destruct (Service.resp s _ _); simpl; [apply Hwh|].
  unfold Write.
  destruct (w_broken (WriteHeader StatusOK _)) eqn:Hk; simpl.
  - apply Hwh.
  - apply Hwh.
Qed.

(** What [WriteRespose] leaves of the body on a writer not yet used:
    nothing more, or, under the status code of the response, what the
    connection took of its marshalled bytes: all of them when it works. *)
Lemma WriteRespose_body (s : Service.t) (σ : World) (respObj : ResponseObject.t) :
  w_status (writer σ) = None ->
  w_body (writer (WriteRespose s σ respObj)) = w_body (writer σ)
  \/ (ResponseObject.notification respObj = false
      /\ w_status (writer (WriteRespose s σ respObj))
           = Some (ResponseObject.statusCode respObj)
      /\ exists sent,
           w_body (writer (WriteRespose s σ respObj))
             = w_body (writer σ) +:+ sent
           /\ String.prefix sent (Marshal respObj) = true
           /\ (w_broken (writer σ) = false -> sent = Marshal respObj)).
Proof.
  intros Hfresh.
  destruct (ResponseObject.notification respObj) eqn:Hnote.
  { left. by apply WriteRespose_notification. }
  destruct (Service.resp s (ResponseObject.r respObj) (Marshal respObj))
    as [err|] eqn:Hhook.
  { left. unfold WriteRespose. rewrite Hnote, Hhook. simpl. unfold WriteHeader.
    destruct (set_headers_twice_fields (Service.headers s)
                (ResponseObject.headers respObj) (writer σ)) as (Hs & _ & Hb & _).
    rewrite Hs, Hfresh. simpl. exact Hb. }
  right. split; [done|].
  destruct (w_broken (writer σ)) eqn:Hconn.
  - assert (Hrun : w_status (writer (WriteRespose s σ respObj))
                     = Some (ResponseObject.statusCode respObj)
                   /\ w_body (writer (WriteRespose s σ respObj))
                       = w_body (writer σ)
                         +:+ substring 0 (w_accepts (writer σ)) (Marshal respObj)).
    { split; unfold WriteRespose; rewrite Hnote, Hhook; simpl;
        destruct (set_headers_twice_fields (Service.headers s)
                    (ResponseObject.headers respObj) (writer σ))
          as (Hs & _ & Hb & Hk);
        unfold Write, WriteHeader; rewrite Hs, Hfresh; simpl;
        rewrite Hk, Hconn; simpl; [done|].
      by rewrite Hb, !set_headers_accepts. }
    destruct Hrun as (Hstatus & Hbody). split; [done|].
    exists (substring 0 (w_accepts (writer σ)) (Marshal respObj)).
    split; [done|]. split; [apply prefix_substring|done].
  - destruct (WriteRespose_delivers s σ respObj Hfresh Hconn Hnote Hhook)
      as (Hstatus & Hbody).
    split; [done|]. exists (Marshal respObj).
    split; [done|]. split; [apply prefix_whole|done].
Qed.

(** X8. The registry is called only for a request that passed every
    stage: the body was read, the request hook and the three transport
    validators let it pass, it decoded without error, its version is
    "2.0" and its id has a supported type. It is then called once, with
    the method, the parameters and the id of the request. *)
Theorem registry_is_called_only_for_validated_requests
    (s : Service.t) (w : ResponseWriter) (r : Request.t) :
  invocations (trace (final (ServeHTTP s (arrive w) r))) <> [] ->
  exists data respObj0 reqObj,
    reaches_decoder s r data respObj0
    /\ Unmarshal data = (Some reqObj, None)
    /\ RequestObject.Jsonrpc reqObj = "2.0"
    /\ unsupported_id (RequestObject.ID reqObj) = false
    /\ invocations (trace (final (ServeHTTP s (arrive w) r)))
         = [(RequestObject.Method reqObj,
             ParametersObject.mk (RequestObject.ID reqObj)
               (RequestObject.Method reqObj) (RequestObject.Params reqObj) r)].
Proof.
  unfold ServeHTTP, reaches_decoder, accepted.
  destruct (ReadAll (Request.Body r)) as [data [e|]] eqn:Hread.
  { simpl. rewrite WriteRespose_invocations. done. }
  destruct (Service.req s r data) as [e|] eqn:Hhook; [done|].
  destruct (ValidateHTTPProtocolVersion _ r) as [[] o1] eqn:Hv1; simpl;
    [|rewrite WriteRespose_invocations; done].
  destruct (ValidateHTTPRequestMethod o1 r) as [[] o2] eqn:Hv2; simpl;
    [|rewrite WriteRespose_invocations; done].
  destruct (ValidateHTTPRequestHeaders o2 r) as [[] o3] eqn:Hv3; simpl;
    [|rewrite WriteRespose_invocations; done].
  destruct (Unmarshal data) as [o [err|]] eqn:Hdec.
  { destruct err as [msg|msg|found t st f]; simpl;
      [rewrite WriteRespose_invocations; done..|].
    destruct (String.eqb found "array"); simpl;
      [rewrite WriteRespose_invocations; done|].
    destruct (String.eqb f "method"); simpl;
      rewrite WriteRespose_invocations; done. }
  destruct o as [reqObj|]; [|done].
  unfold ValidateJSONRPCVersionNumber.
  destruct (String.eqb_spec (RequestObject.Jsonrpc reqObj) "2.0") as [Hver|_];
    simpl; [|rewrite WriteRespose_invocations; done].
  destruct (ConvertIDtoString (RequestObject.ID reqObj)) as [str [e|]] eqn:Hid;
    simpl; [rewrite WriteRespose_invocations; done|].
  intros _. exists data, o3, reqObj.
  split; [split; [done|split; [done|by exists o1, o2]]|].
  split; [done|]. split; [done|]. split.
  - destruct (RequestObject.ID reqObj); simpl in *; done.
  - destruct (Call s _ _) as [result [e|]]; simpl;
      by rewrite WriteRespose_invocations.
Qed.

(** X9. Every run of the handler that returns has sent a status line,
    and has entered [WriteRespose] at most once: one request gets one
    response. *)
Theorem every_return_sends_one_status_line
    (s : Service.t) (w : ResponseWriter) (r : Request.t) (σ' : World) :
  ServeHTTP s (arrive w) r = Returned σ' ->
  is_Some (w_status (writer σ'))
  /\ (length (transmissions (trace σ')) <= 1)%nat.
Proof.
  intros Hrun.
  destruct (ServeHTTP_shape s w r)
    as [(data & err & H')|[(data & H')|(σ & respObj & H' & Hw & Hnt)]];
    rewrite H' in Hrun; try discriminate; injection Hrun as <-.
  - simpl. split; [|lia]. unfold WriteHeader.
    destruct (w_status w) eqn:Hs; simpl; [by rewrite Hs|done].
  - split; [apply WriteRespose_sends_status|].
    rewrite WriteRespose_transmissions, Hnt. simpl. lia.
Qed.

(** X10. On a writer not yet used, the body the handler leaves is empty
    or is a prefix of the marshalled bytes of the one response object it
    transmitted, which is then no notification and went out under its
    own status code; on a connection that works it is all of those
    bytes. Nothing else is ever written to the body. *)
Theorem body_is_a_prefix_of_the_marshalled_response
    (s : Service.t) (w : ResponseWriter) (r : Request.t) :
  w_status w = None ->
  w_body w = EmptyString ->
  w_body (writer (final (ServeHTTP s (arrive w) r))) = EmptyString
  \/ exists respObj,
       transmissions (trace (final (ServeHTTP s (arrive w) r))) = [respObj]
       /\ ResponseObject.notification respObj = false
       /\ w_status (writer (final (ServeHTTP s (arrive w) r)))
            = Some (ResponseObject.statusCode respObj)
       /\ String.prefix (w_body (writer (final (ServeHTTP s (arrive w) r))))
                        (Marshal respObj) = true
       /\ (w_broken w = false ->
           w_body (writer (final (ServeHTTP s (arrive w) r)))
             = Marshal respObj).
Proof.
  intros Hfresh Hempty.
  destruct (ServeHTTP_shape s w r)
    as [(data & err & ->)|[(data & ->)|(σ & respObj & -> & Hw & Hnt)]]; simpl.
  - left. unfold WriteHeader. by rewrite Hfresh.
  - by left.
  - subst w.
    destruct (WriteRespose_body s σ respObj Hfresh)
      as [->|(Hnote & Hs & sent & Hb & Hpre & Hall)].
    + by left.
    + right. exists respObj. rewrite WriteRespose_transmissions, Hnt.
      rewrite Hb, Hempty. simpl.
      split; [done|]. split; [done|]. split; [done|]. split; [done|].
      exact Hall.
Qed.

(** X21. A request that reaches the decoder with the body null stops the
    handler at a nil pointer: the decoder sets the request pointer to
    nil without an error, and the read of the version member through it
    ends the run. Nothing was written to the writer, no response object
    was transmitted and the registry was not called. *)
Theorem null_body_panics_without_response
    (s : Service.t) (w : ResponseWriter) (r : Request.t) (data : string)
    (respObj0 : ResponseObject.t) :
  reaches_decoder s r data respObj0 ->
  json_parse data = inr JNull ->
  Unmarshal data = (None, None)
  /\ exists σ,
       ServeHTTP s (arrive w) r = Panicked σ
       /\ writer σ = w
       /\ transmissions (trace σ) = []
       /\ invocations (trace σ) = [].
Proof.
  intros Hreach Hparse.
  assert (Hdec : Unmarshal data = (None, None)).
  { unfold Unmarshal. by rewrite Hparse. }
  split; [done|]. exists (log (ReqHook data) (arrive w)).
  split; [|done]. enter_decoder Hreach. by rewrite Hdec.
Qed.

End Dispatcher.

(** ** The dispatcher on the requests of the reference environment *)

Lemma sample_reaches_decoder (body : string) :
  @reaches_decoder sample.package sample.service (sample.post body) body
    (sample.response body).
Proof.
  split; [reflexivity|]. split; [reflexivity|].
  exists (sample.response body), (sample.response body).
  repeat split; vm_compute; reflexivity.
Qed.

(** The batch of two calls is answered with code -32604. *)
Lemma batch_request_is_not_implemented_witness :
  w_body (writer (final (sample.serve sample.service sample.body_batch)))
    = sample.js "{'jsonrpc':'2.0','error':{'code':-32604,'message':'Not implemented','data':'batch requests not supported'},'id':null}".
Proof.
  pose proof (@batch_request_is_not_implemented sample.runtime sample.package
                sample.service (new_writer false) (sample.post sample.body_batch)
                sample.body_batch
                [sample.call "2.0" (JString "echo") (JNumber "1");
                 sample.call "2.0" (JString "echo") (JNumber "2")]
                (sample.response sample.body_batch)
                (sample_reaches_decoder sample.body_batch)) as Hthm.
  cbv zeta in Hthm.
  destruct Hthm as (_ & _ & _ & Hwire);
    [vm_compute; reflexivity | vm_compute; discriminate |].
  unfold sample.serve. rewrite Hwire; [vm_compute; reflexivity | reflexivity..].
Defined.

(** The call with version "1.0" is answered with status 200 and the
    InvalidRequest envelope, and echo is not called. *)
Lemma version_mismatch_is_invalid_request_witness :
  w_status (writer (final (sample.serve sample.service sample.body_old_version)))
    = Some 200
  /\ w_body (writer (final (sample.serve sample.service sample.body_old_version)))
      = sample.js "{'jsonrpc':'2.0','error':{'code':-32600,'message':'Invalid Request','data':'jsonrpc request member must be exactly 2.0'},'id':null}"
  /\ ~ invoked (final (sample.serve sample.service sample.body_old_version)).
Proof.
  pose proof (@version_mismatch_is_invalid_request sample.runtime sample.package
                sample.service (new_writer false)
                (sample.post sample.body_old_version) sample.body_old_version
                (RequestObject.mk "1.0" "echo"
                   (Some (JObject [("x", JNumber "1")])) (JString "abc"))
                (sample_reaches_decoder sample.body_old_version)) as Hthm.
  cbv zeta in Hthm.
  destruct Hthm as (_ & _ & _ & Hcalls & Hwire);
    [vm_compute; reflexivity | vm_compute; discriminate |].
  destruct Hwire as (Hstatus & Hbody); [reflexivity..|].
  unfold sample.serve. rewrite Hstatus, Hbody.
  split; [reflexivity|]. split; [vm_compute; reflexivity|]. exact Hcalls.
Defined.

(** A notification for a method the registry does not know: the response
    object carries the registry error and still goes out as 204 with an
    empty body. *)
Lemma notification_is_204_without_body_witness :
  let p := ParametersObject.mk JNull "missing" None
             (sample.post sample.body_notify_unknown) in
  let σ := log (Invoke "missing" p)
             (log (ReqHook sample.body_notify_unknown) (arrive (new_writer false))) in
  let respObj :=
    ResponseObject.set_Error
      (Some (ErrorObject.mk (-32601) "Method not found" (JString "missing")))
      (ResponseObject.set_notification true
         (sample.response sample.body_notify_unknown)) in
  sample.serve sample.service sample.body_notify_unknown
    = Returned (@WriteRespose sample.runtime sample.package sample.service σ respObj)
  /\ w_status (writer (@WriteRespose sample.runtime sample.package
                         sample.service σ respObj)) = Some 204
  /\ w_body (writer (@WriteRespose sample.runtime sample.package
                       sample.service σ respObj)) = EmptyString.
Proof.
  intros p σ respObj. split; [vm_compute; reflexivity|].
  destruct (@notification_is_204_without_body sample.runtime sample.package
              sample.service σ respObj eq_refl eq_refl) as (Hstatus & Hbody & _).
  split; [exact Hstatus|]. rewrite Hbody. reflexivity.
Defined.

(** C6, as the claim states it, fails on the request-hook path: behind a
    request hook that refuses the request, the run ends with status 500,
    [WriteRespose] is not entered, and the static header of the service
    is not on the response. *)
Lemma request_hook_failure_bypasses_transmission :
  trace (final (sample.serve sample.guarded_service sample.body_echo))
    = [ReqHook sample.body_echo]
  /\ ~ transmitted (final (sample.serve sample.guarded_service sample.body_echo))
  /\ w_status (writer (final (sample.serve sample.guarded_service sample.body_echo)))
      = Some 500
  /\ Service.headers sample.guarded_service !! "X-Frame-Options" = Some "DENY"
  /\ w_sent (writer (final (sample.serve sample.guarded_service sample.body_echo)))
        !! "X-Frame-Options" = None.
Proof.
  split; [vm_compute; reflexivity|]. split.
  - intros (ro & Hin).
    assert (Htrace :
      trace (final (sample.serve sample.guarded_service sample.body_echo))
        = [ReqHook sample.body_echo]) by (vm_compute; reflexivity).
    rewrite Htrace in Hin. apply list_elem_of_singleton in Hin. discriminate.
  - repeat split; vm_compute; reflexivity.
Qed.

(** The two halves of the theorem on the reference environment: the
    guarded service ends on the bare status of its hook, the open one
    transmits the answer to the old-version call with its static header. *)
Lemma transmission_on_all_paths_but_request_hook_witness :
  sample.serve sample.guarded_service sample.body_echo
    = Returned (mkWorld (WriteHeader 500 (new_writer false))
                        [ReqHook sample.body_echo])
  /\ exists σ respObj,
       final (sample.serve sample.service sample.body_old_version)
         = @WriteRespose sample.runtime sample.package sample.service σ respObj
       /\ ~ transmitted σ.
Proof.
  split.
  - apply (proj1 (@transmission_on_all_paths_but_request_hook sample.runtime
                    sample.package sample.guarded_service (new_writer false)
                    (sample.post sample.body_echo))
             sample.body_echo (errorString "request refused") eq_refl eq_refl).
  - destruct (proj2 (@transmission_on_all_paths_but_request_hook sample.runtime
                       sample.package sample.service (new_writer false)
                       (sample.post sample.body_old_version))
                (final (sample.serve sample.service sample.body_old_version)))
      as (σ & respObj & Hrun & _ & Hnt & _).
    + vm_compute. reflexivity.
    + intros data _. reflexivity.
    + exists σ, respObj. split; [exact Hrun | exact Hnt].
Defined.

(** A response object that sets X-Frame-Options itself overrides the
    static value of the service. *)
Lemma dynamic_headers_override_static_witness :
  let respObj :=
    ResponseObject.mk "2.0" None JNull JNull false 200
      {[ "X-Frame-Options" := "SAMEORIGIN" ]} None in
  w_sent (writer (@WriteRespose sample.runtime sample.package sample.service
                    (arrive (new_writer false)) respObj))
    !! "X-Frame-Options" = Some "SAMEORIGIN".
Proof.
  intros respObj.
  apply (proj2 (proj2 (@dynamic_headers_override_static sample.runtime
                         sample.package sample.service
                         (arrive (new_writer false)) respObj eq_refl))
           "X-Frame-Options" "DENY" "SAMEORIGIN" eq_refl eq_refl).
  intros k [v Hk] _. subst respObj. simpl in Hk.
  apply lookup_singleton_Some in Hk as [<- _]. reflexivity.
Defined.

(** C8 fails on the code for a method that is a JSON array. The decoder
    reports a type error that found an array at the field "method"; the
    handler tests for an array first, so the call is answered as a batch
    request (code -32604 here) and never reaches the test of the method
    field (code -32099 here). *)
Theorem method_array_is_answered_as_batch :
  (@Unmarshal sample.runtime sample.body_method_array).2
    = Some (UnmarshalTypeError "array" "string" "RequestObject" "method")
  /\ w_body (writer (final (sample.serve sample.service sample.body_method_array)))
      = sample.js "{'jsonrpc':'2.0','error':{'code':-32604,'message':'Not implemented','data':'batch requests not supported'},'id':null}"
  /\ exists respObj,
       trace (final (sample.serve sample.service sample.body_method_array))
         = [ReqHook sample.body_method_array; Transmit respObj;
            RespHook (sample.marshal respObj)]
       /\ ErrorObject.Code <$> ResponseObject.Error respObj
            = Some (@NotImplementedCode sample.package)
       /\ ErrorObject.Code <$> ResponseObject.Error respObj
            <> Some (@InvalidMethodCode sample.package).
Proof.
  split; [vm_compute; reflexivity|]. split; [vm_compute; reflexivity|].
  exists (ResponseObject.set_Error
            (Some (ErrorObject.mk (-32604) "Not implemented"
                     (JString "batch requests not supported")))
            (sample.response sample.body_method_array)).
  split; [vm_compute; reflexivity|].
  split; [reflexivity | vm_compute; discriminate].
Qed.

(** C9, as the claim states it, fails: the call whose id is [true]
    decodes with that id, and the error response transmitted for it has
    the null id, on the response object and on the wire. *)
Lemma bool_id_is_not_echoed :
  @Unmarshal sample.runtime sample.body_bool_id
    = (Some (RequestObject.mk "2.0" "echo" None (JBool true)), None)
  /\ w_body (writer (final (sample.serve sample.service sample.body_bool_id)))
      = sample.js "{'jsonrpc':'2.0','error':{'code':-32600,'message':'Invalid Request','data':'ID data type must be string or number'},'id':null}"
  /\ exists respObj,
       trace (final (sample.serve sample.service sample.body_bool_id))
         = [ReqHook sample.body_bool_id; Transmit respObj;
            RespHook (sample.marshal respObj)]
       /\ ResponseObject.ID respObj = JNull
       /\ ResponseObject.ID respObj <> JBool true.
Proof.
  split; [vm_compute; reflexivity|]. split; [vm_compute; reflexivity|].
  exists (ResponseObject.set_Error
            (Some (ErrorObject.mk (-32600) "Invalid Request"
                     (JString "ID data type must be string or number")))
            (sample.response sample.body_bool_id)).
  split; [vm_compute; reflexivity|].
  split; [reflexivity | discriminate].
Qed.

Lemma unsupported_id_is_answered_with_null_id_witness :
  sample.serve sample.service sample.body_bool_id
    = Returned (@WriteRespose sample.runtime sample.package sample.service
        (log (ReqHook sample.body_bool_id) (arrive (new_writer false)))
        (ResponseObject.set_Error
           (Some (ErrorObject.mk (-32600) "Invalid Request"
                    (JString "ID data type must be string or number")))
           (sample.response sample.body_bool_id)))
  /\ ~ invoked (final (sample.serve sample.service sample.body_bool_id)).
Proof.
  pose proof (@unsupported_id_is_answered_with_null_id sample.runtime
                sample.package sample.service (new_writer false)
                (sample.post sample.body_bool_id) sample.body_bool_id
                (RequestObject.mk "2.0" "echo" None (JBool true))
                (sample_reaches_decoder sample.body_bool_id)) as Hthm.
  cbv zeta in Hthm.
  destruct Hthm as (Hrun & _ & _ & _ & Hcalls);
    [vm_compute; reflexivity | reflexivity | reflexivity |].
  split; [exact Hrun | exact Hcalls].
Defined.

(** ** Keys outside ASCII *)

(** The long s selects the fields with an s in their name, in either
    case of the other letters; the Kelvin sign stands for a k, which no
    field name has. *)
Lemma field_of_key_folds_long_s :
  field_of_key ("j" +:+ cases.long_s +:+ "onrpc") = Some FJsonrpc
  /\ field_of_key ("J" +:+ cases.long_s +:+ "ONRPC") = Some FJsonrpc
  /\ field_of_key ("param" +:+ cases.long_s) = Some FParams
  /\ field_of_key ("metho" +:+ cases.long_s) = None
  /\ field_of_key cases.kelvin = None
  /\ foldName ("to" +:+ cases.kelvin +:+ "en") = "token".
Proof. repeat split; vm_compute; reflexivity. Qed.

(** A call whose version member is spelled with a long s is decoded with
    that version: it passes the version check and echo answers it. *)
Lemma long_s_version_is_decoded :
  (@Unmarshal cases.runtime cases.body_long_s_version).1
    = Some (RequestObject.mk "2.0" "echo" None (JNumber "1"))
  /\ w_status (writer (final (cases.handle sample.service (new_writer false)
                                (sample.post cases.body_long_s_version))))
      = Some 200
  /\ w_body (writer (final (cases.handle sample.service (new_writer false)
                              (sample.post cases.body_long_s_version))))
      = sample.js "{'jsonrpc':'2.0','result':null,'id':1}".
Proof. repeat split; vm_compute; reflexivity. Qed.

(** With a number under that key and a number as the method, the first
    type error is the one at the version field: the answer is the parse
    error, not the error of a method that is no string. *)
Lemma long_s_type_error_comes_first :
  (@Unmarshal cases.runtime cases.body_long_s_number).2
    = Some (UnmarshalTypeError "number" "string" "RequestObject" "jsonrpc")
  /\ w_body (writer (final (cases.handle sample.service (new_writer false)
                              (sample.post cases.body_long_s_number))))
      = sample.js "{'jsonrpc':'2.0','error':{'code':-32700,'message':'Parse error','data':'json: cannot unmarshal number into Go struct field RequestObject.jsonrpc of type string'},'id':null}".
Proof. repeat split; vm_compute; reflexivity. Qed.

(** * Properties of the client *)

(** Case folding leaves the three bytes of "2.0" alone, so folded
    equality with "2.0" is equality. *)
Lemma lower_version_bytes (b : ascii) :
  (Ascii.eqb (lower "2"%char) (lower b) = true -> b = "2"%char)
  /\ (Ascii.eqb (lower "."%char) (lower b) = true -> b = "."%char)
  /\ (Ascii.eqb (lower "0"%char) (lower b) = true -> b = "0"%char).
Proof.
  destruct b as [[] [] [] [] [] [] [] []]; vm_compute;
    repeat split; intros; first [reflexivity | discriminate].
Qed.

Lemma EqualFold_version (t : string) :
  EqualFold "2.0" t = true <-> t = "2.0".
Proof.
  split; [|intros ->; reflexivity].
  destruct t as [|a t]; simpl; [discriminate|].
  intros H. apply andb_prop in H as [Ha H].
  destruct t as [|b t]; simpl in H; [discriminate|].
  apply andb_prop in H as [Hb H].
  destruct t as [|c t]; simpl in H; [discriminate|].
  apply andb_prop in H as [Hc H].
  destruct t as [|d t]; [|discriminate].
  apply (proj1 (lower_version_bytes a)) in Ha.
  apply (proj1 (proj2 (lower_version_bytes b))) in Hb.
  apply (proj2 (proj2 (lower_version_bytes c))) in Hc.
  by subst.
Qed.

Section Invoker.
Context `{Runtime} `{client.Environment}.

(** Stepping a run of [Call] up to the response. *)
Ltac enter_response Hans :=
  let reqData := fresh "reqData" in
  let q0 := fresh "q0" in
  let Hm := fresh "Hm" in
  let Hq := fresh "Hq" in
  let Hd := fresh "Hd" in
  destruct Hans as (reqData & q0 & Hm & Hq & -> & Hd);
  unfold client.Call; rewrite Hm, Hq, Hd.

(** C3. When the response to the call has a status other than 200, the
    call fails with the InternalError that carries the status observed
    and 200. The request was sent once, and the run neither read the
    body nor decoded anything. *)
Theorem non_200_status_is_internal_error
    (c : client.Config.t) (method : string) (params : option string)
    (q : client.HTTPRequest.t) (resp : client.HTTPResponse.t) :
  client.answered c method params q resp ->
  client.HTTPResponse.StatusCode resp <> StatusOK ->
  let e := client.SetHTTPStatusCodes
             (client.NewInternalError client.ErrorPrefix None)
             (client.HTTPResponse.StatusCode resp) StatusOK in
  (client.Call c method params).1 = (None, Some (client.Internal e))
  /\ client.InternalError.HTTPStatusCodes e
       = Some (client.HTTPResponse.StatusCode resp, 200)
  /\ (client.Call c method params).2
       = [client.Sent q; client.Closed; client.Cancelled]
  /\ client.requests_sent (client.Call c method params).2 = [q]
  /\ (client.ReadBody ∉ (client.Call c method params).2)
  /\ client.texts_decoded (client.Call c method params).2 = [].
Proof.
  intros Hans Hstatus e.
  assert (Hrun : client.Call c method params
    = ((None, Some (client.Internal e)),
       [client.Sent q; client.Closed; client.Cancelled])).
  { enter_response Hans.
    destruct (Z.eqb_spec (client.HTTPResponse.StatusCode resp) StatusOK);
      [done|]. done. }
  rewrite Hrun. simpl. repeat split.
  intros Hin. repeat (apply elem_of_cons in Hin as [Hin|Hin]; [done|]).
  by apply elem_of_nil in Hin.
Qed.

(** What [Call] returns once it holds a decoded envelope. *)
Lemma Call_decoded (c : client.Config.t) (method : string)
    (params : option string) (respObj : client.ResponseObject.t) :
  client.decoded c method params respObj ->
  (client.Call c method params).1
    = if negb (EqualFold client.genUUID (client.ResponseObject.ID respObj)) then
        client.fail_with
          (client.SetRPCIDs (client.NewInternalError client.ErrorPrefix None)
             (client.ResponseObject.ID respObj) client.genUUID)
      else if negb (EqualFold "2.0" (client.ResponseObject.Jsonrpc respObj)) then
        client.fail_with
          (client.SetProtocolVersions
             (client.NewInternalError client.ErrorPrefix None)
             (client.ResponseObject.Jsonrpc respObj) "2.0")
      else match client.ResponseObject.Error respObj with
           | Some e => (None, Some (client.Remote e))
           | None => (client.ResponseObject.Result respObj, None)
           end.
Proof.
  intros (q & resp & data & Hans & Hstatus & Hread & Hdec).
  enter_response Hans. rewrite Hstatus, Hread, Hdec.
  unfold client.getRequestObject.
  cbn [client.RequestObject.ID client.RequestObject.Jsonrpc Z.eqb StatusOK
       Pos.eqb negb].
  destruct (EqualFold client.genUUID (client.ResponseObject.ID respObj));
    cbn [negb fst]; [|done].
  destruct (EqualFold "2.0" (client.ResponseObject.Jsonrpc respObj));
    cbn [negb fst]; [|done].
  by destruct (client.ResponseObject.Error respObj).
Qed.

(** C5. Once the call holds a decoded envelope, it compares the id of
    the envelope with the id of the request, up to the case of letters,
    and the protocol version of the envelope with "2.0". An id that
    differs makes the call fail with the InternalError that carries the
    id observed and the id expected; with matching ids, a version other
    than "2.0" makes it fail with the InternalError that carries the
    version observed and "2.0". Only when both match does the call go on
    to the error or the result of the envelope. *)
Theorem response_is_correlated_with_request
    (c : client.Config.t) (method : string) (params : option string)
    (respObj : client.ResponseObject.t) :
  client.decoded c method params respObj ->
  let e0 := client.NewInternalError client.ErrorPrefix None in
  let observed_id := client.ResponseObject.ID respObj in
  let observed_version := client.ResponseObject.Jsonrpc respObj in
  (EqualFold client.genUUID observed_id = false ->
     (client.Call c method params).1
       = (None, Some (client.Internal
                        (client.SetRPCIDs e0 observed_id client.genUUID)))
     /\ client.InternalError.RPCIDs (client.SetRPCIDs e0 observed_id client.genUUID)
          = Some (observed_id, client.genUUID))
  /\ (EqualFold client.genUUID observed_id = true ->
      observed_version <> "2.0" ->
      (client.Call c method params).1
        = (None, Some (client.Internal
                         (client.SetProtocolVersions e0 observed_version "2.0")))
      /\ client.InternalError.ProtocolVersions
           (client.SetProtocolVersions e0 observed_version "2.0")
           = Some (observed_version, "2.0"))
  /\ (EqualFold client.genUUID observed_id = true ->
      observed_version = "2.0" ->
      (client.Call c method params).1
        = match client.ResponseObject.Error respObj with
          | Some e => (None, Some (client.Remote e))
          | None => (client.ResponseObject.Result respObj, None)
          end).
Proof.
  intros Hdec e0 observed_id observed_version.
  rewrite (Call_decoded _ _ _ _ Hdec).
  fold observed_id observed_version.
  split; [|split].
  - intros ->. done.
  - intros -> Hver. cbn [negb].
    destruct (EqualFold "2.0" observed_version) eqn:Hfold; [|done].
    by apply EqualFold_version in Hfold.
  - intros -> ->. done.
Qed.

(** C10. The two comparisons come before the error of the envelope is
    looked at: a decoded envelope that carries an error and an id that
    differs from the id of the request makes the call fail with the
    InternalError of the id mismatch, and the error of the envelope is
    not what the call returns. *)
Theorem id_mismatch_hides_remote_error
    (c : client.Config.t) (method : string) (params : option string)
    (respObj : client.ResponseObject.t) (e : client.ErrorObject.t) :
  client.decoded c method params respObj ->
  client.ResponseObject.Error respObj = Some e ->
  EqualFold client.genUUID (client.ResponseObject.ID respObj) = false ->
  (client.Call c method params).1
    = (None, Some (client.Internal
                     (client.SetRPCIDs
                        (client.NewInternalError client.ErrorPrefix None)
                        (client.ResponseObject.ID respObj) client.genUUID)))
  /\ (client.Call c method params).1.2 <> Some (client.Remote e).
Proof.
  intros Hdec Herr Hid.
  rewrite (Call_decoded _ _ _ _ Hdec), Hid. simpl. done.
Qed.

(** ** Further properties of the client *)

Lemma set_request_headers_keeps (c : client.Config.t) (q : client.HTTPRequest.t) :
  client.HTTPRequest.Method (client.set_request_headers c q)
    = client.HTTPRequest.Method q
  /\ client.HTTPRequest.URL (client.set_request_headers c q)
      = client.HTTPRequest.URL q
  /\ client.HTTPRequest.Body (client.set_request_headers c q)
      = client.HTTPRequest.Body q.
Proof.
  unfold client.set_request_headers.
  assert (Hfold : forall l q0,
    client.HTTPRequest.Method
      (foldl (fun q kv => client.req_Header_Set kv.1 kv.2 q) q0 l)
      = client.HTTPRequest.Method q0
    /\ client.HTTPRequest.URL
        (foldl (fun q kv => client.req_Header_Set kv.1 kv.2 q) q0 l)
        = client.HTTPRequest.URL q0
    /\ client.HTTPRequest.Body
        (foldl (fun q kv => client.req_Header_Set kv.1 kv.2 q) q0 l)
        = client.HTTPRequest.Body q0).
  { induction l as [|[k v] l IH]; intros q0; simpl; [done|].
    destruct (IH (client.req_Header_Set k v q0)) as (-> & -> & ->). done. }
  destruct (Hfold (range (client.Config.headers c)) q) as (Hm & Hu & Hb).
  destruct (client.Config.socketPath c), (client.Config.disableCompression c);
    simpl; by rewrite ?Hm, ?Hu, ?Hb.
Qed.

(** X14. When the request object does not marshal, or the configured URI
    is refused by [http.NewRequest], the call fails with the
    InternalError that wraps that error, and nothing is sent. *)
Theorem nothing_is_sent_when_the_request_cannot_be_built
    (c : client.Config.t) (method : string) (params : option string)
    (err : error) :
  client.Marshal (client.getRequestObject method params) = inl err
  \/ (exists reqData,
        client.Marshal (client.getRequestObject method params) = inr reqData
        /\ client.ParseURL (client.Config.uri c) = Some err) ->
  client.Call c method params
    = ((None, Some (client.Internal
                      (client.NewInternalError client.ErrorPrefix (Some err)))),
       []).
Proof.
  intros [Hm|(reqData & Hm & Hu)]; unfold client.Call; rewrite Hm; [done|].
  unfold client.NewRequest. by rewrite Hu.
Qed.

(** X15. When the exchange itself fails (no connection, a timeout), the
    call fails with the InternalError that wraps the transport error;
    the request was sent once and nothing was read or decoded. *)
Theorem transport_failure_is_wrapped
    (c : client.Config.t) (method : string) (params : option string)
    (reqData : string) (err : error) :
  client.Marshal (client.getRequestObject method params) = inr reqData ->
  client.ParseURL (client.Config.uri c) = None ->
  let q := client.set_request_headers c
             (client.HTTPRequest.mk "POST" (client.Config.uri c) ∅ reqData) in
  client.Do c q = inl err ->
  client.Call c method params
    = ((None, Some (client.Internal
                      (client.NewInternalError client.ErrorPrefix (Some err)))),
       [client.Sent q; client.Cancelled]).
Proof.
  intros Hm Hu q Hd. unfold client.Call. rewrite Hm.
  unfold client.NewRequest. rewrite Hu. fold q. by rewrite Hd.
Qed.

(** X16. Whatever headers the configuration holds, the request carries
    Content-Encoding gzip unless compression is disabled, and
    X-Real-IP and X-Client-IP 127.0.0.1 when a socket path is
    configured: these are set after the configured headers and replace
    them. Method, URL and body of the request are left as they were. *)
Theorem compression_and_loopback_headers_override_configuration
    (c : client.Config.t) (q : client.HTTPRequest.t) :
  CanonicalMIMEHeaderKey "Content-Encoding" <> CanonicalMIMEHeaderKey "X-Real-IP" ->
  CanonicalMIMEHeaderKey "Content-Encoding" <> CanonicalMIMEHeaderKey "X-Client-IP" ->
  CanonicalMIMEHeaderKey "X-Real-IP" <> CanonicalMIMEHeaderKey "X-Client-IP" ->
  (client.Config.disableCompression c = false ->
     client.HTTPRequest.Header (client.set_request_headers c q)
       !! CanonicalMIMEHeaderKey "Content-Encoding" = Some "gzip")
  /\ (is_Some (client.Config.socketPath c) ->
      client.HTTPRequest.Header (client.set_request_headers c q)
        !! CanonicalMIMEHeaderKey "X-Real-IP" = Some "127.0.0.1"
      /\ client.HTTPRequest.Header (client.set_request_headers c q)
          !! CanonicalMIMEHeaderKey "X-Client-IP" = Some "127.0.0.1")
  /\ client.HTTPRequest.Method (client.set_request_headers c q)
      = client.HTTPRequest.Method q
  /\ client.HTTPRequest.URL (client.set_request_headers c q)
      = client.HTTPRequest.URL q
  /\ client.HTTPRequest.Body (client.set_request_headers c q)
      = client.HTTPRequest.Body q.
Proof.
  intros Hce_real Hce_client Hreal_client.
  split; [|split; [|apply set_request_headers_keeps]].
  - intros Hgzip. unfold client.set_request_headers. rewrite Hgzip. simpl.
    destruct (client.Config.socketPath c); simpl; unfold Header_Set.
    + rewrite lookup_insert_ne by done. rewrite lookup_insert_ne by done.
      apply lookup_insert_eq.
    + apply lookup_insert_eq.
  - intros [path Hpath]. unfold client.set_request_headers. rewrite Hpath.
    simpl. unfold Header_Set. split.
    + rewrite lookup_insert_ne by done. apply lookup_insert_eq.
    + apply lookup_insert_eq.
Qed.

(** X17. When the response has status 200 and its body cannot be read to
    its end, or is read and does not decode, the call fails with the
    InternalError that wraps the read error or the decode error; in the
    first case nothing is decoded. *)
Theorem unreadable_or_undecodable_reply_is_wrapped
    (c : client.Config.t) (method : string) (params : option string)
    (q : client.HTTPRequest.t) (resp : client.HTTPResponse.t)
    (data : string) (err : error) :
  client.answered c method params q resp ->
  client.HTTPResponse.StatusCode resp = StatusOK ->
  ReadAll (client.HTTPResponse.Body resp) = (data, Some err)
  \/ (ReadAll (client.HTTPResponse.Body resp) = (data, None)
      /\ client.Unmarshal data = inl err) ->
  (client.Call c method params).1
    = (None, Some (client.Internal
                     (client.NewInternalError client.ErrorPrefix (Some err))))
  /\ (client.Call c method params).2
      = match (ReadAll (client.HTTPResponse.Body resp)).2 with
        | Some _ => [client.Sent q; client.ReadBody; client.Closed;
                     client.Cancelled]
        | None => [client.Sent q; client.ReadBody; client.Decoded data;
                   client.Closed; client.Cancelled]
        end.
Proof.
  intros Hans Hstatus Hfail. enter_response Hans. rewrite Hstatus.
  cbn [Z.eqb StatusOK Pos.eqb negb].
  destruct Hfail as [Hread|(Hread & Hdec)]; rewrite Hread; [done|].
  by rewrite Hdec.
Qed.

(** X18. The call returns without error only when all went well: the
    response had status 200, its body was read and decoded, the id of
    the envelope equals the id of the request up to the case of letters,
    its version is "2.0" and it carries no error; what is returned is
    then the result of that envelope. *)
Theorem result_only_from_a_matching_envelope
    (c : client.Config.t) (method : string) (params : option string)
    (res : option string) (events : list client.event) :
  client.Call c method params = ((res, None), events) ->
  exists respObj,
    client.decoded c method params respObj
    /\ EqualFold client.genUUID (client.ResponseObject.ID respObj) = true
    /\ client.ResponseObject.Jsonrpc respObj = "2.0"
    /\ client.ResponseObject.Error respObj = None
    /\ res = client.ResponseObject.Result respObj.
Proof.
  unfold client.Call, client.decoded, client.answered.
  destruct (client.Marshal _) as [e|reqData] eqn:Hm; [done|].
  destruct (client.NewRequest _ _ _) as [e|q0] eqn:Hq; [done|].
  destruct (client.Do c _) as [e|resp] eqn:Hd; [done|].
  destruct (Z.eqb_spec (client.HTTPResponse.StatusCode resp) StatusOK)
    as [Hstatus|_]; [|done]. cbn [negb].
  destruct (ReadAll (client.HTTPResponse.Body resp)) as [data [e|]] eqn:Hread;
    [done|].
  destruct (client.Unmarshal data) as [e|respObj] eqn:Hdec; [done|].
  unfold client.getRequestObject.
  cbn [client.RequestObject.ID client.RequestObject.Jsonrpc].
  destruct (EqualFold client.genUUID (client.ResponseObject.ID respObj))
    eqn:Hid; cbn [negb]; [|done].
  destruct (EqualFold "2.0" (client.ResponseObject.Jsonrpc respObj))
    eqn:Hver; cbn [negb]; [|done].
  destruct (client.ResponseObject.Error respObj) eqn:Herr; [done|].
  intros [= <- _]. exists respObj.
  split; [|by apply EqualFold_version in Hver].
  exists (client.set_request_headers c q0), resp, data.
  split; [by exists reqData, q0|done].
Qed.

(** X19. On every path the call sends at most one request, an error
    comes with a nil payload, and a run that sent a request ends by
    cancelling its context. *)
Theorem call_sends_at_most_one_request
    (c : client.Config.t) (method : string) (params : option string) :
  (length (client.requests_sent (client.Call c method params).2) <= 1)%nat
  /\ ((client.Call c method params).1.2 <> None ->
      (client.Call c method params).1.1 = None)
  /\ ((client.Call c method params).2 = []
      \/ last (client.Call c method params).2 = Some client.Cancelled).
Proof.
  assert (Hpath : forall (out : option string * option client.call_error)
                         (events : list client.event),
    (length (client.requests_sent events) <= 1)%nat ->
    (out.2 <> None -> out.1 = None) ->
    (events = [] \/ last events = Some client.Cancelled) ->
    (length (client.requests_sent (out, events).2) <= 1)%nat
    /\ ((out, events).1.2 <> None -> (out, events).1.1 = None)
    /\ ((out, events).2 = [] \/ last (out, events).2 = Some client.Cancelled))
    by done.
  unfold client.Call.
  destruct (client.Marshal _) as [e|reqData];
    [apply Hpath; simpl; [lia|done|by left]|].
  destruct (client.NewRequest _ _ _) as [e|q0];
    [apply Hpath; simpl; [lia|done|by left]|].
  destruct (client.Do c _) as [e|resp];
    [apply Hpath; simpl; [lia|done|by right]|].
  destruct (negb _); [apply Hpath; simpl; [lia|done|by right]|].
  destruct (ReadAll _) as [data [e|]];
    [apply Hpath; simpl; [lia|done|by right]|].
  destruct (client.Unmarshal data) as [e|respObj];
    [apply Hpath; simpl; [lia|done|by right]|].
  destruct (negb _); [apply Hpath; simpl; [lia|done|by right]|].
  destruct (negb _); [apply Hpath; simpl; [lia|done|by right]|].
  destruct (client.ResponseObject.Error respObj);
    apply Hpath; simpl; [lia|done|by right|lia|done|by right].
Qed.

(** X20. A request the call sends is a POST to the configured URI whose
    body is the marshalled request object, and that object has version
    "2.0", the method and parameters of the call and the id the
    generator gave. *)
Theorem request_is_a_post_of_the_marshalled_envelope
    (c : client.Config.t) (method : string) (params : option string)
    (q : client.HTTPRequest.t) :
  q ∈ client.requests_sent (client.Call c method params).2 ->
  client.HTTPRequest.Method q = "POST"
  /\ client.HTTPRequest.URL q = client.Config.uri c
  /\ client.Marshal (client.RequestObject.mk "2.0" method params client.genUUID)
      = inr (client.HTTPRequest.Body q).
Proof.
  unfold client.Call, client.getRequestObject.
  destruct (client.Marshal _) as [e|reqData] eqn:Hm;
    [simpl; by intros Hin%elem_of_nil|].
  unfold client.NewRequest.
  destruct (client.ParseURL _) as [e|]; [simpl; by intros Hin%elem_of_nil|].
  pose proof (set_request_headers_keeps c
                (client.HTTPRequest.mk "POST" (client.Config.uri c) ∅ reqData))
    as (Hmeth & Hurl & Hbody). simpl in Hmeth, Hurl, Hbody.
  assert (Hone : forall events, client.requests_sent events
            = [client.set_request_headers c
                 (client.HTTPRequest.mk "POST" (client.Config.uri c) ∅ reqData)]
            -> q ∈ client.requests_sent events ->
            client.HTTPRequest.Method q = "POST"
            /\ client.HTTPRequest.URL q = client.Config.uri c
            /\ (inr reqData : error + string)
                 = inr (client.HTTPRequest.Body q)).
  { intros events -> Hin%list_elem_of_singleton. subst q.
    by rewrite Hmeth, Hurl, Hbody. }
  destruct (client.Do c _) as [e|resp]; [by apply Hone|].
  destruct (negb _); [by apply Hone|].
  destruct (ReadAll _) as [data [e|]]; [by apply Hone|].
  destruct (client.Unmarshal data) as [e|respObj]; [by apply Hone|].
  destruct (negb _); [by apply Hone|].
  destruct (negb _); [by apply Hone|].
  destruct (client.ResponseObject.Error respObj); by apply Hone.
Qed.

End Invoker.

(** ** The client against the servers of the reference environment *)

Lemma sample_answered (uri : string) (resp : client.HTTPResponse.t) :
  sample.transport (sample.config uri) (sample.request uri) = inr resp ->
  @client.answered sample.runtime sample.environment (sample.config uri) "echo"
    (Some (sample.js "{'x':1}")) (sample.request uri) resp.
Proof.
  intros Hdo.
  exists (client.HTTPRequest.Body (sample.request uri)),
         (client.HTTPRequest.mk "POST" uri ∅
            (client.HTTPRequest.Body (sample.request uri))).
  split; [vm_compute; reflexivity|]. split; [reflexivity|].
  split; [|exact Hdo].
  unfold sample.request, client.set_request_headers, sample.config; simpl.
  unfold client.req_Header_Set, client.HTTPRequest.set_Header; simpl.
  f_equal.
Qed.

Lemma sample_decoded (uri data : string) (respObj : client.ResponseObject.t) :
  sample.transport (sample.config uri) (sample.request uri)
    = inr (client.HTTPResponse.mk 200 (mkReader data None)) ->
  sample.decode_reply data = inr respObj ->
  @client.decoded sample.runtime sample.environment (sample.config uri) "echo"
    (Some (sample.js "{'x':1}")) respObj.
Proof.
  intros Hdo Hdec.
  exists (sample.request uri), (client.HTTPResponse.mk 200 (mkReader data None)), data.
  split; [by apply sample_answered|]. split; [reflexivity|].
  split; [reflexivity|exact Hdec].
Qed.

(** The server that answers 503: the call fails with (503, 200) after
    one request, although the body of the reply would decode. *)
Lemma non_200_status_is_internal_error_witness :
  sample.invoke "http://unavailable.test/rpc"
    = ((None,
        Some (client.Internal
                (client.InternalError.mk "jrpc2 client" None (Some (503, 200))
                   None None))),
       [client.Sent (sample.request "http://unavailable.test/rpc");
        client.Closed; client.Cancelled])
  /\ sample.decode_reply sample.reply_echo
      = inr (client.ResponseObject.mk "2.0" "6BA7B810-9DAD-11D1-80B4-00C04FD430C8"
               None (Some (sample.js "{'x':1}"))).
Proof.
  split; [|vm_compute; reflexivity].
  destruct (@non_200_status_is_internal_error sample.runtime sample.environment
              (sample.config "http://unavailable.test/rpc") "echo"
              (Some (sample.js "{'x':1}"))
              (sample.request "http://unavailable.test/rpc")
              (client.HTTPResponse.mk 503 (mkReader sample.reply_echo None)))
    as (Hres & _ & Htrace & _).
  - apply sample_answered. reflexivity.
  - simpl. discriminate.
  - unfold sample.invoke.
    rewrite (surjective_pairing (client.Call _ _ _)), Hres, Htrace. reflexivity.
Defined.

(** The server that answers with another id fails the id check; the
    server that answers in version "1.0" with the right id fails the
    version check; the id in capitals passes. *)
Lemma response_is_correlated_with_request_witness :
  (sample.invoke "http://other-id.test/rpc").1
    = (None,
       Some (client.Internal
               (client.InternalError.mk "jrpc2 client" None None
                  (Some ("another-call", sample.uuid)) None)))
  /\ (sample.invoke "http://old-version.test/rpc").1
      = (None,
         Some (client.Internal
                 (client.InternalError.mk "jrpc2 client" None None None
                    (Some ("1.0", "2.0")))))
  /\ (sample.invoke "http://echo.test/rpc").1 = (Some (sample.js "{'x':1}"), None).
Proof.
  split; [|split].
  - apply (proj1 (@response_is_correlated_with_request sample.runtime
                    sample.environment (sample.config "http://other-id.test/rpc")
                    "echo" (Some (sample.js "{'x':1}")) _
                    (sample_decoded "http://other-id.test/rpc" sample.reply_other_id
                       _ eq_refl eq_refl))).
    vm_compute. reflexivity.
  - apply (proj1 (proj2 (@response_is_correlated_with_request sample.runtime
                    sample.environment (sample.config "http://old-version.test/rpc")
                    "echo" (Some (sample.js "{'x':1}")) _
                    (sample_decoded "http://old-version.test/rpc"
                       sample.reply_old_version _ eq_refl eq_refl)))).
    + vm_compute. reflexivity.
    + vm_compute. discriminate.
  - apply (proj2 (proj2 (@response_is_correlated_with_request sample.runtime
                    sample.environment (sample.config "http://echo.test/rpc")
                    "echo" (Some (sample.js "{'x':1}")) _
                    (sample_decoded "http://echo.test/rpc" sample.reply_echo
                       _ eq_refl eq_refl)))).
    + vm_compute. reflexivity.
    + vm_compute. reflexivity.
Defined.

(** The reply with another id carries the error "Method not found"; the
    call returns the id mismatch. *)
Lemma id_mismatch_hides_remote_error_witness :
  (sample.invoke "http://other-id.test/rpc").1
    = (None,
       Some (client.Internal
               (client.InternalError.mk "jrpc2 client" None None
                  (Some ("another-call", sample.uuid)) None)))
  /\ (sample.invoke "http://other-id.test/rpc").1.2
      <> Some (client.Remote
                 (client.ErrorObject.mk (-32601) "Method not found" JNull)).
Proof.
  apply (@id_mismatch_hides_remote_error sample.runtime sample.environment
           (sample.config "http://other-id.test/rpc") "echo"
           (Some (sample.js "{'x':1}")) _
           (client.ErrorObject.mk (-32601) "Method not found" JNull)
           (sample_decoded "http://other-id.test/rpc" sample.reply_other_id
              _ eq_refl eq_refl)).
  - reflexivity.
  - vm_compute. reflexivity.
Defined.

(** ** Further runs on the reference environment *)

(** The POST whose body breaks off is answered with 400 and the parse
    error that carries the read error. *)
Lemma unreadable_body_is_parse_error_400_witness :
  w_status (writer (final (cases.handle sample.service (new_writer false)
                             (cases.cut_off "{")))) = Some 400
  /\ w_body (writer (final (cases.handle sample.service (new_writer false)
                              (cases.cut_off "{"))))
      = sample.js "{'jsonrpc':'2.0','error':{'code':-32700,'message':'Parse error','data':'unexpected EOF'},'id':null}".
Proof.
  pose proof (@unreadable_body_is_parse_error_400 cases.runtime sample.package
                sample.service (new_writer false) (cases.cut_off "{") "{"
                (errorString "unexpected EOF") eq_refl) as Hthm.
  cbv zeta in Hthm. destruct Hthm as (_ & _ & Hwire).
  destruct Hwire as (Hstatus & Hbody); [reflexivity..|].
  unfold cases.handle. rewrite Hstatus, Hbody.
  split; [reflexivity | vm_compute; reflexivity].
Defined.

(** The GET is rejected by the method validator: one response object,
    with status code 405, and no call of the registry. *)
Lemma rejected_request_is_answered_by_its_validator_witness :
  ResponseObject.statusCode
    <$> transmissions (trace (final (cases.handle sample.service
                                       (new_writer false)
                                       (cases.get sample.body_echo))))
    = [405]
  /\ invocations (trace (final (cases.handle sample.service (new_writer false)
                                  (cases.get sample.body_echo)))) = [].
Proof.
  destruct (@rejected_request_is_answered_by_its_validator cases.runtime
              sample.package sample.service (new_writer false)
              (cases.get sample.body_echo) sample.body_echo
              (sample.reject 405 "request method must be POST"
                 (@fresh_response sample.package (cases.get sample.body_echo))).2
              eq_refl eq_refl) as (_ & Htx & Hcalls).
  - right. left.
    exists (@fresh_response sample.package (cases.get sample.body_echo)).
    split; vm_compute; reflexivity.
  - unfold cases.handle. rewrite Htx, Hcalls. split; reflexivity.
Defined.

(** A body that is no JSON text. *)
Lemma malformed_body_is_parse_error_witness :
  w_body (writer (final (cases.handle sample.service (new_writer false)
                           (sample.post "{"))))
    = sample.js "{'jsonrpc':'2.0','error':{'code':-32700,'message':'Parse error','data':'invalid character looking for beginning of value'},'id':null}"
  /\ invocations (trace (final (cases.handle sample.service (new_writer false)
                                  (sample.post "{")))) = [].
Proof.
  pose proof (@malformed_body_is_parse_error cases.runtime sample.package
                sample.service (new_writer false) (sample.post "{") "{"
                "invalid character looking for beginning of value"
                (sample.response "{") (sample_reaches_decoder "{") eq_refl)
    as Hthm.
  cbv zeta in Hthm. destruct Hthm as (Hrun & Hcalls).
  split; [|exact Hcalls]. unfold cases.handle. rewrite Hrun.
  vm_compute. reflexivity.
Defined.

(** The body 42. *)
Lemma scalar_body_is_parse_error_witness :
  w_body (writer (final (cases.handle sample.service (new_writer false)
                           (sample.post cases.body_number))))
    = sample.js "{'jsonrpc':'2.0','error':{'code':-32700,'message':'Parse error','data':'json: cannot unmarshal number into Go value of type jrpc2.RequestObject'},'id':null}".
Proof.
  pose proof (@scalar_body_is_parse_error cases.runtime sample.package
                sample.service (new_writer false)
                (sample.post cases.body_number) cases.body_number
                (JNumber "42") (sample.response cases.body_number)
                (sample_reaches_decoder cases.body_number) eq_refl eq_refl)
    as Hthm.
  cbv zeta in Hthm. destruct Hthm as (Hrun & _).
  unfold cases.handle. rewrite Hrun. vm_compute. reflexivity.
Defined.

(** The call whose method is the number 7 is answered with the code of
    the invalid method. *)
Lemma non_string_method_is_invalid_method_witness :
  w_body (writer (final (cases.handle sample.service (new_writer false)
                           (sample.post cases.body_method_number))))
    = sample.js "{'jsonrpc':'2.0','error':{'code':-32099,'message':'Invalid method','data':'method data type must be string'},'id':null}".
Proof.
  pose proof (@non_string_method_is_invalid_method cases.runtime sample.package
                sample.service (new_writer false)
                (sample.post cases.body_method_number) cases.body_method_number
                [("jsonrpc", JString "2.0"); ("method", JNumber "7");
                 ("id", JNumber "1")]
                (sample.response cases.body_method_number)
                (sample_reaches_decoder cases.body_method_number) eq_refl)
    as Hthm.
  cbv zeta in Hthm. destruct Hthm as (Hrun & _).
  - intros key v Hin Hf.
    repeat (apply elem_of_cons in Hin as [[= -> ->]|Hin];
            [first [reflexivity | vm_compute in Hf; discriminate]|]).
    by apply elem_of_nil in Hin.
  - intros key v Hin Hf.
    repeat (apply elem_of_cons in Hin as [[= -> ->]|Hin];
            [first [discriminate | vm_compute in Hf; discriminate]|]).
    by apply elem_of_nil in Hin.
  - exists "method", (JNumber "7"). split; [|split; reflexivity].
    apply elem_of_cons. right. apply elem_of_cons. by left.
  - unfold cases.handle. rewrite Hrun. vm_compute. reflexivity.
Defined.

(** The notification for a method the registry does not know: one call
    of the registry, status 204, empty body. *)
Lemma notification_calls_the_registry_and_gets_204_witness :
  invocations (trace (final (cases.handle sample.service (new_writer false)
                               (sample.post sample.body_notify_unknown))))
    = [("missing",
        ParametersObject.mk JNull "missing" None
          (sample.post sample.body_notify_unknown))]
  /\ w_status (writer (final (cases.handle sample.service (new_writer false)
                                (sample.post sample.body_notify_unknown))))
      = Some 204
  /\ w_body (writer (final (cases.handle sample.service (new_writer false)
                              (sample.post sample.body_notify_unknown))))
      = EmptyString.
Proof.
  pose proof (@notification_calls_the_registry_and_gets_204 cases.runtime
                sample.package sample.service (new_writer false)
                (sample.post sample.body_notify_unknown)
                sample.body_notify_unknown
                (RequestObject.mk "2.0" "missing" None JNull)
                (sample.response sample.body_notify_unknown)
                (sample_reaches_decoder sample.body_notify_unknown))
    as Hthm.
  cbv zeta in Hthm.
  destruct Hthm as (Hcalls & _ & Hwire);
    [vm_compute; reflexivity | reflexivity | reflexivity |].
  destruct Hwire as (Hstatus & Hbody); [reflexivity|].
  split; [exact Hcalls|]. split; [exact Hstatus | exact Hbody].
Defined.

(** The call of echo under the id "abc" is answered under "abc" with the
    parameters as result. *)
Lemma call_is_answered_under_its_id_witness :
  exists respObj,
    transmissions (trace (final (cases.handle sample.service (new_writer false)
                                   (sample.post sample.body_echo))))
      = [respObj]
    /\ ResponseObject.ID respObj = JString "abc"
    /\ ResponseObject.Result respObj = JObject [("x", JNumber "1")]
    /\ ResponseObject.Error respObj = None
    /\ ResponseObject.statusCode respObj = 200.
Proof.
  pose proof (@call_is_answered_under_its_id cases.runtime sample.package
                sample.service (new_writer false) (sample.post sample.body_echo)
                sample.body_echo
                (RequestObject.mk "2.0" "echo"
                   (Some (JObject [("x", JNumber "1")])) (JString "abc"))
                (sample.response sample.body_echo)
                (sample_reaches_decoder sample.body_echo)) as Hthm.
  cbv zeta in Hthm.
  destruct Hthm as (_ & respObj & Htx & Hid & Hres & Herr & Hstatus & _);
    [vm_compute; reflexivity | reflexivity | by left |].
  exists respObj. split; [exact Htx|]. split; [exact Hid|].
  split; [exact Hres|]. split; [exact Herr | exact Hstatus].
Defined.

(** The run that called echo had passed every stage. *)
Lemma registry_is_called_only_for_validated_requests_witness :
  exists data respObj0 reqObj,
    @reaches_decoder sample.package sample.service (sample.post sample.body_echo)
      data respObj0
    /\ @Unmarshal cases.runtime data = (Some reqObj, None)
    /\ RequestObject.Jsonrpc reqObj = "2.0"
    /\ unsupported_id (RequestObject.ID reqObj) = false
    /\ invocations (trace (final (cases.handle sample.service (new_writer false)
                                    (sample.post sample.body_echo))))
         = [(RequestObject.Method reqObj,
             ParametersObject.mk (RequestObject.ID reqObj)
               (RequestObject.Method reqObj) (RequestObject.Params reqObj)
               (sample.post sample.body_echo))].
Proof.
  apply (@registry_is_called_only_for_validated_requests cases.runtime
           sample.package sample.service (new_writer false)
           (sample.post sample.body_echo)).
  vm_compute. discriminate.
Defined.

(** The run of the echo call sent a status line and entered
    [WriteRespose] once. *)
Lemma every_return_sends_one_status_line_witness :
  is_Some (w_status (writer (final (cases.handle sample.service
                                      (new_writer false)
                                      (sample.post sample.body_echo)))))
  /\ (length (transmissions
                (trace (final (cases.handle sample.service (new_writer false)
                                 (sample.post sample.body_echo))))) <= 1)%nat.
Proof.
  apply (@every_return_sends_one_status_line cases.runtime sample.package
           sample.service (new_writer false) (sample.post sample.body_echo)).
  vm_compute. reflexivity.
Defined.

(** The body left by the echo call on a connection that fails after 14
    bytes. *)
Lemma body_is_a_prefix_of_the_marshalled_response_witness :
  w_body (writer (final (cases.handle sample.service cases.failing_writer
                           (sample.post sample.body_echo)))) = EmptyString
  \/ exists respObj,
       transmissions (trace (final (cases.handle sample.service
                                      cases.failing_writer
                                      (sample.post sample.body_echo))))
         = [respObj]
       /\ ResponseObject.notification respObj = false
       /\ w_status (writer (final (cases.handle sample.service
                                     cases.failing_writer
                                     (sample.post sample.body_echo))))
            = Some (ResponseObject.statusCode respObj)
       /\ String.prefix
            (w_body (writer (final (cases.handle sample.service
                                      cases.failing_writer
                                      (sample.post sample.body_echo)))))
            (sample.marshal respObj) = true
       /\ (w_broken cases.failing_writer = false ->
           w_body (writer (final (cases.handle sample.service
                                    cases.failing_writer
                                    (sample.post sample.body_echo))))
             = sample.marshal respObj).
Proof.
  apply (@body_is_a_prefix_of_the_marshalled_response cases.runtime
           sample.package sample.service cases.failing_writer
           (sample.post sample.body_echo) eq_refl eq_refl).
Defined.

(** Behind a response hook that refuses, the answer to the echo call is
    the bare status 500, with the static header. *)
Lemma response_hook_veto_sends_bare_status_witness :
  w_status (writer (@WriteRespose cases.runtime sample.package
                      cases.vetoing_service (arrive (new_writer false))
                      (sample.response sample.body_echo))) = Some 500
  /\ w_body (writer (@WriteRespose cases.runtime sample.package
                       cases.vetoing_service (arrive (new_writer false))
                       (sample.response sample.body_echo))) = EmptyString
  /\ w_sent (writer (@WriteRespose cases.runtime sample.package
                       cases.vetoing_service (arrive (new_writer false))
                       (sample.response sample.body_echo)))
        !! "X-Frame-Options" = Some "DENY".
Proof.
  destruct (@response_hook_veto_sends_bare_status cases.runtime sample.package
              cases.vetoing_service (arrive (new_writer false))
              (sample.response sample.body_echo)
              (errorString "request refused") eq_refl eq_refl eq_refl)
    as (Hstatus & Hbody & Hsent).
  split; [exact Hstatus|]. split; [exact Hbody|].
  rewrite Hsent. vm_compute. reflexivity.
Defined.

(** On a connection that fails after 14 bytes the status stays 200 and
    the body is the first 14 bytes of the envelope. *)
Lemma failed_write_keeps_the_status_witness :
  w_status (writer (@WriteRespose cases.runtime sample.package sample.service
                      (arrive cases.failing_writer)
                      (sample.response sample.body_echo))) = Some 200
  /\ w_body (writer (@WriteRespose cases.runtime sample.package sample.service
                       (arrive cases.failing_writer)
                       (sample.response sample.body_echo)))
      = sample.js "{'jsonrpc':'2.".
Proof.
  destruct (@failed_write_keeps_the_status cases.runtime sample.package
              sample.service (arrive cases.failing_writer)
              (sample.response sample.body_echo) eq_refl eq_refl eq_refl eq_refl)
    as (Hstatus & Hbody & _).
  split; [exact Hstatus|]. rewrite Hbody. vm_compute. reflexivity.
Defined.

(** The response object sets Content-Type only: X-Frame-Options goes out
    as the service has it. *)
Lemma static_header_is_kept_unless_overridden_witness :
  w_sent (writer (@WriteRespose cases.runtime sample.package sample.service
                    (arrive (new_writer false))
                    (sample.response sample.body_echo)))
    !! "X-Frame-Options" = Some "DENY".
Proof.
  destruct (@static_header_is_kept_unless_overridden cases.runtime
              sample.package sample.service (arrive (new_writer false))
              (sample.response sample.body_echo) "X-Frame-Options" "DENY"
              eq_refl eq_refl) as (_ & Huniq).
  - intros k [v Hk]. simpl in Hk.
    apply lookup_singleton_Some in Hk as [<- _]. vm_compute. discriminate.
  - apply Huniq. intros k [v Hk] _. simpl in Hk.
    apply lookup_singleton_Some in Hk as [<- _]. reflexivity.
Defined.

(** ** Further runs of the client *)

Lemma cases_answered (uri : string) (resp : client.HTTPResponse.t) :
  cases.parse_url uri = None ->
  cases.transport (sample.config uri) (sample.request uri) = inr resp ->
  @client.answered cases.runtime cases.environment (sample.config uri) "echo"
    (Some (sample.js "{'x':1}")) (sample.request uri) resp.
Proof.
  intros Hurl Hdo.
  exists (client.HTTPRequest.Body (sample.request uri)),
         (client.HTTPRequest.mk "POST" uri ∅
            (client.HTTPRequest.Body (sample.request uri))).
  split; [vm_compute; reflexivity|]. split.
  { unfold client.NewRequest. simpl. by rewrite Hurl. }
  split; [|exact Hdo].
  unfold sample.request, client.set_request_headers, sample.config; simpl.
  unfold client.req_Header_Set, client.HTTPRequest.set_Header; simpl.
  f_equal.
Qed.

(** Parameters that do not marshal, and a URI that does not parse:
    nothing is sent. *)
Lemma nothing_is_sent_when_the_request_cannot_be_built_witness :
  cases.invoke "http://echo.test/rpc" (Some "{")
    = ((None,
        Some (client.Internal
                (client.InternalError.mk "jrpc2 client"
                   (Some (errorString
                            "json: error calling MarshalJSON for type json.RawMessage"))
                   None None None))), [])
  /\ cases.invoke "::bad" None
      = ((None,
          Some (client.Internal
                  (client.InternalError.mk "jrpc2 client"
                     (Some (errorString "parse: missing protocol scheme"))
                     None None None))), []).
Proof.
  split.
  - apply (@nothing_is_sent_when_the_request_cannot_be_built cases.runtime
             cases.environment (sample.config "http://echo.test/rpc") "echo"
             (Some "{")). left. reflexivity.
  - apply (@nothing_is_sent_when_the_request_cannot_be_built cases.runtime
             cases.environment (sample.config "::bad") "echo" None).
    right. eexists. split; reflexivity.
Defined.

(** A host that does not resolve. *)
Lemma transport_failure_is_wrapped_witness :
  cases.invoke "http://nowhere.test/rpc" (Some (sample.js "{'x':1}"))
    = ((None,
        Some (client.Internal
                (client.InternalError.mk "jrpc2 client"
                   (Some (errorString "dial tcp: no such host"))
                   None None None))),
       [client.Sent (sample.request "http://nowhere.test/rpc");
        client.Cancelled]).
Proof.
  pose proof (@transport_failure_is_wrapped cases.runtime cases.environment
                (sample.config "http://nowhere.test/rpc") "echo"
                (Some (sample.js "{'x':1}"))
                (client.HTTPRequest.Body (sample.request "http://nowhere.test/rpc"))
                (errorString "dial tcp: no such host")) as Hthm.
  cbv zeta in Hthm. unfold cases.invoke.
  rewrite Hthm; [|vm_compute; reflexivity..].
  vm_compute. reflexivity.
Defined.

(** The configuration asks for Content-Encoding identity and gives an
    X-Real-IP of its own: the request says gzip and 127.0.0.1 (under
    the canonical name X-Real-Ip). *)
Lemma compression_and_loopback_headers_override_configuration_witness :
  client.HTTPRequest.Header
    (@client.set_request_headers sample.runtime cases.socket_config
       (client.HTTPRequest.mk "POST" "http://echo.test/rpc" ∅ EmptyString))
    !! "Content-Encoding" = Some "gzip"
  /\ client.HTTPRequest.Header
       (@client.set_request_headers sample.runtime cases.socket_config
          (client.HTTPRequest.mk "POST" "http://echo.test/rpc" ∅ EmptyString))
       !! "X-Real-Ip" = Some "127.0.0.1".
Proof.
  destruct (@compression_and_loopback_headers_override_configuration
              sample.runtime cases.socket_config
              (client.HTTPRequest.mk "POST" "http://echo.test/rpc" ∅ EmptyString))
    as (Hgzip & Hloop & _); [vm_compute; discriminate..|].
  split; [exact (Hgzip eq_refl)|].
  exact (proj1 (Hloop (ex_intro _ "/run/jrpc2.sock" eq_refl))).
Defined.

(** A reply that is no JSON, and a reply that breaks off. *)
Lemma unreadable_or_undecodable_reply_is_wrapped_witness :
  (cases.invoke "http://garbled.test/rpc" (Some (sample.js "{'x':1}"))).1
    = (None,
       Some (client.Internal
               (client.InternalError.mk "jrpc2 client"
                  (Some (SyntaxError
                           "invalid character looking for beginning of value"))
                  None None None)))
  /\ (cases.invoke "http://cut-off.test/rpc" (Some (sample.js "{'x':1}"))).1
      = (None,
         Some (client.Internal
                 (client.InternalError.mk "jrpc2 client"
                    (Some (errorString "unexpected EOF")) None None None))).
Proof.
  split.
  - apply (@unreadable_or_undecodable_reply_is_wrapped cases.runtime
             cases.environment (sample.config "http://garbled.test/rpc") "echo"
             (Some (sample.js "{'x':1}"))
             (sample.request "http://garbled.test/rpc")
             (client.HTTPResponse.mk 200 (mkReader "<html>" None)) "<html>"
             (SyntaxError "invalid character looking for beginning of value")
             (cases_answered "http://garbled.test/rpc" _ eq_refl eq_refl)
             eq_refl).
    right. split; reflexivity.
  - apply (@unreadable_or_undecodable_reply_is_wrapped cases.runtime
             cases.environment (sample.config "http://cut-off.test/rpc") "echo"
             (Some (sample.js "{'x':1}"))
             (sample.request "http://cut-off.test/rpc")
             (client.HTTPResponse.mk 200
                (mkReader "{" (Some (errorString "unexpected EOF")))) "{"
             (errorString "unexpected EOF")
             (cases_answered "http://cut-off.test/rpc" _ eq_refl eq_refl)
             eq_refl).
    left. reflexivity.
Defined.

(** The echo server: the call returns the result, and the envelope it
    came from matches the request. *)
Lemma result_only_from_a_matching_envelope_witness :
  exists respObj,
    @client.decoded sample.runtime sample.environment
      (sample.config "http://echo.test/rpc") "echo"
      (Some (sample.js "{'x':1}")) respObj
    /\ EqualFold sample.uuid (client.ResponseObject.ID respObj) = true
    /\ client.ResponseObject.Jsonrpc respObj = "2.0"
    /\ client.ResponseObject.Error respObj = None
    /\ Some (sample.js "{'x':1}") = client.ResponseObject.Result respObj.
Proof.
  apply (@result_only_from_a_matching_envelope sample.runtime sample.environment
           (sample.config "http://echo.test/rpc") "echo"
           (Some (sample.js "{'x':1}")) (Some (sample.js "{'x':1}"))
           (sample.invoke "http://echo.test/rpc").2).
  vm_compute. reflexivity.
Defined.

(** The request sent to the echo server. *)
Lemma request_is_a_post_of_the_marshalled_envelope_witness :
  client.HTTPRequest.Method (sample.request "http://echo.test/rpc") = "POST"
  /\ client.HTTPRequest.URL (sample.request "http://echo.test/rpc")
      = "http://echo.test/rpc"
  /\ sample.encode_request
       (client.RequestObject.mk "2.0" "echo" (Some (sample.js "{'x':1}"))
          sample.uuid)
      = inr (client.HTTPRequest.Body (sample.request "http://echo.test/rpc")).
Proof.
  apply (@request_is_a_post_of_the_marshalled_envelope sample.runtime
           sample.environment (sample.config "http://echo.test/rpc") "echo"
           (Some (sample.js "{'x':1}"))).
  assert (Hsent : client.requests_sent (sample.invoke "http://echo.test/rpc").2
                  = [sample.request "http://echo.test/rpc"])
    by (vm_compute; reflexivity).
  unfold sample.invoke in Hsent. rewrite Hsent.
  by apply list_elem_of_singleton.
Defined.

(** The body null on the reference service. *)
Lemma null_body_panics_without_response_witness :
  exists σ,
    cases.handle sample.service (new_writer false) (sample.post "null")
      = Panicked σ
    /\ writer σ = new_writer false
    /\ transmissions (trace σ) = []
    /\ invocations (trace σ) = [].
Proof.
  apply (proj2 (@null_body_panics_without_response cases.runtime sample.package
                  sample.service (new_writer false) (sample.post "null") "null"
                  (sample.response "null") (sample_reaches_decoder "null")
                  eq_refl)).
Defined.
